(** * Project performance analytics: KPI model, loader, validator, generator

    A shallow embedding of the Python scripts under [scripts/]:

    - [create_database.py]: the [projects] table with its CHECK
      constraints, the [managers] reference table, the [kpi_metrics] view
      and the CSV import loop;
    - [etl_pipeline.py]: [transform_data];
    - [validate_data.py]: [validate_datasets] and its entry point;
    - [generate_project_data.py]: [DEPT_CONFIG] and
      [generate_realistic_project].

    Numbers.  SQLite [INTEGER] columns and Python [int] are [Z].  SQLite
    [REAL] and IEEE doubles are exact rationals [Q]; a pandas [float64]
    additionally carries the two infinities and NaN ([float64] below), and
    an SQL expression that may be NULL is an [option].  The three rounding
    primitives in play are modelled by their tie rule on the exact value:
    SQLite's [ROUND(x, 2)] rounds halves away from zero, numpy's
    [Series.round(2)] and Python's [round(x, 2)] round halves to even,
    Python's [int(x)] truncates towards zero.

    Dates are proleptic Gregorian ordinals ([date.toordinal()]), so
    [julianday(End_Date) - julianday(Start_Date)] and
    [(End_Date - Start_Date).dt.days] are both a subtraction in [Z].

    Effects.  The validator threads its local variables
    [validation_passed] and [issues] through the checks and may end in
    an uncaught [KeyError]; the generator threads the state of the
    pseudo-random source, a tape of raw draws, and may end in the
    exception [randint] or [choice] raise on an empty range.  Console
    output is not modelled, apart from the warnings the validator
    prints. *)

From Stdlib Require Import ZArith QArith Qround Qabs Lia Lqa Bool Ascii String.
From Stdlib Require Import Floats.PrimFloat.
From stdpp Require Import gmap strings list.

Local Open Scope string_scope.
Local Open Scope Z_scope.

(* ===================================================================== *)
(** * Part I.  Embedding                                                  *)
(* ===================================================================== *)

(** ** Rounding primitives *)

(** Nearest integer, halves away from zero (SQLite [ROUND]). *)
Definition round_half_away (y : Q) : Z :=
  if Qle_bool 0 y then Qfloor (y + (1 # 2))%Q
  else - Qfloor (- y + (1 # 2))%Q.

(** Nearest integer, halves to the even neighbour (numpy [rint], Python
    [round]). *)
Definition round_half_even (y : Q) : Z :=
  let f := Qfloor y in
  match (y - inject_Z f ?= 1 # 2)%Q with
  | Lt => f
  | Gt => f + 1
  | Eq => if Z.even f then f else f + 1
  end.


(** SQLite [ROUND(x, 2)]. *)
Definition sqlite_round2 (x : Q) : Q :=
  Qred (inject_Z (round_half_away (x * 100)) / 100).

(** numpy [x.round(2)] and Python [round(x, 2)] on a finite value. *)
Definition py_round2 (x : Q) : Q :=
  Qred (inject_Z (round_half_even (x * 100)) / 100).

(** Python [int(x)]: truncation towards zero. *)
Definition py_int (x : Q) : Z := Z.quot (Qnum x) (Z.pos (Qden x)).

(** Strict comparison of rationals as a boolean. *)
Definition Qlt_bool (x y : Q) : bool := negb (Qle_bool y x).

(** ** SQL expressions that may be NULL *)

(** SQLite real division: a zero divisor yields NULL. *)
Definition sql_div (a b : Q) : option Q :=
  if Qeq_bool b 0 then None else Some (a / b)%Q.

(** SQLite integer division: truncating, NULL on a zero divisor. *)
Definition sql_idiv (a b : Z) : option Z :=
  if b =? 0 then None else Some (Z.quot a b).

(** A [WHEN] condition that evaluates to NULL does not fire. *)
Definition sql_when (c : option bool) : bool :=
  match c with Some b => b | None => false end.

(** ** pandas float64 cells *)

Inductive float64 : Type :=
| Fin (q : Q)
| PosInf
| NegInf
| NaN.

(** [a - b], [a / b] and [a * k] on finite operands, as numpy evaluates
    them: a zero divisor gives an infinity signed like the dividend, or
    NaN for [0 / 0]; no exception is raised. *)
Definition f64_div (a b : Q) : float64 :=
  if Qeq_bool b 0 then
    match (a ?= 0)%Q with Gt => PosInf | Lt => NegInf | Eq => NaN end
  else Fin (a / b).

(** Multiplication by a positive finite constant. *)
Definition f64_scale (x : float64) (k : Q) : float64 :=
  match x with
  | Fin q => Fin (q * k)
  | other => other
  end.

(** [Series.round(2)]: infinities and NaN pass through. *)
Definition f64_round2 (x : float64) : float64 :=
  match x with
  | Fin q => Fin (py_round2 q)
  | other => other
  end.

(** ** Calendar *)

(** [datetime._days_before_year]. *)
Definition days_before_year (y : Z) : Z :=
  let y1 := y - 1 in y1 * 365 + y1 / 4 - y1 / 100 + y1 / 400.

Definition is_leap (y : Z) : bool :=
  (y mod 4 =? 0) && (negb (y mod 100 =? 0) || (y mod 400 =? 0)).

Definition days_in_month (y m : Z) : Z :=
  if m =? 2 then (if is_leap y then 29 else 28)
  else if (m =? 4) || (m =? 6) || (m =? 9) || (m =? 11) then 30
  else 31.

(** Days in the months of year [y] that precede month [m]. *)
Definition days_before_month (y m : Z) : Z :=
  fold_right Z.add 0
    (map (days_in_month y) (map Z.of_nat (seq 1 (Z.to_nat (m - 1))))).

(** [datetime(y, m, d).toordinal()]. *)
Definition ymd2ord (y m d : Z) : Z :=
  days_before_year y + days_before_month y m + d.

(** ** The [projects] table *)

(** One row of [projects] (the column [Created_At] is not read by any of
    the modelled code). *)
Record Project : Type := mkProject {
  Project_ID : Z;
  Department : string;
  Project_Name : string;
  Manager : string;
  Start_Date : Z;
  End_Date : Z;
  Planned_Cost : Q;
  Actual_Cost : Q;
  Planned_Completion : Z;
  Actual_Completion : Z;
  Status : string;
  Tasks_Total : Z;
  Tasks_Completed : Z;
  Planned_Hours : Z;
  Actual_Hours : Z
}.

Definition valid_statuses : list string :=
  ["Not Started"; "In Progress"; "Completed"; "Delayed"; "On Hold"].

(** [Status IN ('Not Started', ...)]. *)
Definition status_in (s : string) (l : list string) : bool :=
  existsb (String.eqb s) l.

(** The six table-level CHECK constraints of [CREATE TABLE projects], in
    the order of the DDL. *)
Definition projects_check (r : Project) : bool :=
  Qle_bool 0 (Planned_Cost r)
  && Qle_bool 0 (Actual_Cost r)
  && ((0 <=? Planned_Completion r) && (Planned_Completion r <=? 100))
  && ((0 <=? Actual_Completion r) && (Actual_Completion r <=? 100))
  && (Tasks_Completed r <=? Tasks_Total r)
  && status_in (Status r) valid_statuses.

(** The invariants the data model lists for a stored Project (those that
    speak about a single row). *)
Definition project_invariants (r : Project) : Prop :=
  Start_Date r < End_Date r
  /\ (0 < Planned_Cost r)%Q /\ (0 < Actual_Cost r)%Q
  /\ 0 <= Planned_Completion r <= 100
  /\ 0 <= Actual_Completion r <= 100
  /\ Tasks_Completed r <= Tasks_Total r
  /\ 0 < Planned_Hours r /\ 0 <= Actual_Hours r
  /\ In (Status r) valid_statuses.

(** ** The [kpi_metrics] view *)

Record KpiRow : Type := mkKpiRow {
  Cost_Variance : Q;
  Cost_Variance_Pct : option Q;
  Duration_Days : Z;
  Completion_Variance : Z;
  Task_Completion_Pct : option Q;
  Hours_Variance : Z;
  Hours_Variance_Pct : option Q;
  Delivery_Status : string;
  Budget_Status : string
}.

(** [(Actual_Cost - Planned_Cost) / Planned_Cost * 100], before any
    rounding. *)
Definition cost_variance_raw (r : Project) : option Q :=
  option_map (fun x => x * 100)%Q
    (sql_div (Actual_Cost r - Planned_Cost r) (Planned_Cost r)).

(** [Tasks_Completed * 100.0 / Tasks_Total]: the literal [100.0] makes the
    division a real one. *)
Definition task_completion_raw (r : Project) : option Q :=
  sql_div (inject_Z (Tasks_Completed r) * 100) (inject_Z (Tasks_Total r)).

(** [(Actual_Hours - Planned_Hours) / Planned_Hours * 100]: both columns
    are INTEGER, so the division is SQLite's integer division. *)
Definition hours_variance_raw (r : Project) : option Q :=
  option_map (fun z => inject_Z (z * 100))
    (sql_idiv (Actual_Hours r - Planned_Hours r) (Planned_Hours r)).

Definition delivery_status (r : Project) : string :=
  if String.eqb (Status r) "Completed" && (Actual_Completion r =? 100)
  then "On-Time"
  else if String.eqb (Status r) "Delayed" then "Delayed"
  else "In-Progress".

Definition budget_status (r : Project) : string :=
  if sql_when (option_map (fun x => Qle_bool (Qabs x) 10)
                 (cost_variance_raw r))
  then "Within Budget"
  else if Qlt_bool (Planned_Cost r) (Actual_Cost r) then "Over Budget"
  else "Under Budget".

(** [SELECT ... FROM projects], the computed columns of one row. *)
Definition kpi_metrics (r : Project) : KpiRow :=
  {| Cost_Variance := (Actual_Cost r - Planned_Cost r)%Q;
     Cost_Variance_Pct := option_map sqlite_round2 (cost_variance_raw r);
     Duration_Days := End_Date r - Start_Date r;
     Completion_Variance := Actual_Completion r - Planned_Completion r;
     Task_Completion_Pct :=
       option_map sqlite_round2 (task_completion_raw r);
     Hours_Variance := Actual_Hours r - Planned_Hours r;
     Hours_Variance_Pct := option_map sqlite_round2 (hours_variance_raw r);
     Delivery_Status := delivery_status r;
     Budget_Status := budget_status r |}.

(** ** The ETL transform step *)

(** The columns [transform_data] adds to a row. *)
Record Transformed : Type := mkTransformed {
  Delay_Days : Z;
  Cost_Variance_pct : float64;
  On_Time : bool;
  Completion_Rate_pct : float64
}.

Definition transform_data (r : Project) : Transformed :=
  {| Delay_Days := End_Date r - Start_Date r;
     Cost_Variance_pct :=
       f64_round2
         (f64_scale
            (f64_div (Actual_Cost r - Planned_Cost r) (Planned_Cost r))
            100);
     On_Time := Planned_Completion r <=? Actual_Completion r;
     Completion_Rate_pct :=
       f64_round2
         (f64_scale
            (f64_div (inject_Z (Actual_Completion r))
               (inject_Z (Planned_Completion r)))
            100) |}.

(** ** The loader: [create_database] *)







(** [DataFrame.drop_duplicates()]: the first occurrence of every value
    is kept, in order. *)
Fixpoint drop_duplicates_from {A : Type} `{EqDecision A}
    (seen l : list A) : list A :=
  match l with
  | [] => []
  | x :: l' =>
      if decide (x ∈ seen) then drop_duplicates_from seen l'
      else x :: drop_duplicates_from (x :: seen) l'
  end.

Definition drop_duplicates {A : Type} `{EqDecision A} (l : list A) : list A :=
  drop_duplicates_from [] l.








(** ** The generator: [generate_realistic_project] *)

(** The pseudo-random source is a tape of raw integers; every draw
    consumes one cell.  A computation either returns a value and the rest
    of the tape, or raises ([None]). *)
Definition tape : Type := nat -> Z.

Definition Rand (A : Type) : Type := tape -> option (A * tape).

Definition ret {A : Type} (a : A) : Rand A := fun s => Some (a, s).

Definition bind {A B : Type} (m : Rand A) (k : A -> Rand B) : Rand B :=
  fun s => match m s with
           | Some (a, s') => k a s'
           | None => None
           end.

Definition raise {A : Type} : Rand A := fun _ => None.

Declare Scope rand_scope.
Notation "x <- m ;; k" := (bind m (fun x => k))
  (at level 20, m at level 99, k at level 200, only parsing) : rand_scope.
Notation "' pat <- m ;; k" := (bind m (fun x => match x with pat => k end))
  (at level 20, pat pattern, m at level 99, k at level 200, only parsing)
  : rand_scope.
Local Open Scope rand_scope.

Definition next_raw : Rand Z :=
  fun s => Some (s 0%nat, fun n => s (S n)).

(** [Random._randbelow(n)]: an integer in [[0, n)]. *)
Definition randbelow (n : Z) : Rand Z :=
  if 0 <? n then r <- next_raw ;; ret (r mod n) else raise.

(** [random.randint(a, b)]: [ValueError] on an empty range. *)
Definition randint (a b : Z) : Rand Z :=
  k <- randbelow (b - a + 1) ;; ret (a + k).

(** [random.random()]: a multiple of [2^-53] in [[0, 1)]. *)
Definition random : Rand Q :=
  r <- next_raw ;; ret (r mod 2 ^ 53 # 9007199254740992).

(** [random.uniform(a, b)] is [a + (b - a) * random()]. *)
Definition uniform (a b : Q) : Rand Q :=
  u <- random ;; ret (a + (b - a) * u)%Q.

(** [random.choice(seq)]: [IndexError] on an empty sequence. *)
Definition choice (seq : list string) : Rand string :=
  i <- randbelow (Z.of_nat (length seq)) ;;
  match nth_error seq (Z.to_nat i) with
  | Some x => ret x
  | None => raise
  end.

Record DeptConfig : Type := mkDeptConfig {
  cfg_managers : list string;
  cost_range : Z * Z;
  duration_range : Z * Z;
  project_types : list string
}.

Definition marketing_config : DeptConfig :=
  {| cfg_managers :=
       ["John Smith"; "Sarah Lee"; "Akash Verma"; "Emma Watson"];
     cost_range := (10000, 50000);
     duration_range := (14, 84);
     project_types :=
       ["Q1 Product Launch"; "Social Media Campaign";
        "Brand Awareness Drive"; "Content Marketing Strategy";
        "Email Marketing Automation"; "Market Research Study";
        "Influencer Partnership Program"; "Website Redesign";
        "SEO Optimization Project"; "Customer Survey Initiative";
        "Trade Show Participation"; "Video Marketing Campaign";
        "Rebranding Initiative"; "PR Campaign Launch";
        "Lead Generation Program"; "Mobile App Launch";
        "Partnership Marketing"; "Event Marketing Strategy";
        "Loyalty Program Rollout"; "Digital Ad Campaign"] |}.

Definition operations_config : DeptConfig :=
  {| cfg_managers :=
       ["Priya Mehta"; "Ravi Patel"; "Aditi Nair"; "Vikram Singh"];
     cost_range := (15000, 75000);
     duration_range := (28, 112);
     project_types :=
       ["Warehouse Optimization"; "Supply Chain Integration";
        "Quality Control Enhancement"; "Inventory Management System";
        "Vendor Management Platform"; "Process Automation Initiative";
        "Logistics Network Redesign"; "Cost Reduction Program";
        "Safety Compliance Upgrade"; "Equipment Maintenance Overhaul";
        "Distribution Center Expansion";
        "Lean Manufacturing Implementation"; "Six Sigma Project";
        "Fleet Management System"; "Production Line Upgrade";
        "Sustainability Initiative"; "Waste Reduction Program";
        "Supplier Diversification"; "Demand Forecasting System";
        "Cold Chain Management"] |}.

Definition it_config : DeptConfig :=
  {| cfg_managers :=
       ["Neha Sharma"; "Karan Gupta"; "Rohit Singh"; "Anjali Desai"];
     cost_range := (20000, 100000);
     duration_range := (42, 168);
     project_types :=
       ["Cloud Migration Project"; "Cybersecurity Enhancement";
        "ERP System Upgrade"; "Data Center Modernization";
        "Mobile App Development"; "API Integration Platform";
        "DevOps Pipeline Implementation"; "Disaster Recovery Setup";
        "Network Infrastructure Upgrade"; "CRM System Implementation";
        "Business Intelligence Dashboard";
        "Software License Optimization"; "Database Migration";
        "Microservices Architecture"; "AI/ML Model Deployment";
        "Zero Trust Security Model"; "Backup System Overhaul";
        "Legacy System Decommission"; "IoT Platform Development";
        "Blockchain Integration"] |}.

Definition DEPT_CONFIG : gmap string DeptConfig :=
  list_to_map
    [("Marketing", marketing_config);
     ("Operations", operations_config);
     ("IT", it_config)].

(** The status roll: status, planned and actual completion, completed
    tasks. *)
Definition roll_status (tasks_total : Z) : Rand (string * Z * Z * Z) :=
  status_roll <- random ;;
  if Qlt_bool status_roll (40 # 100) then
    ret ("Completed", 100, 100, tasks_total)
  else if Qlt_bool status_roll (75 # 100) then
    actual_completion <- randint 50 95 ;;
    ret ("In Progress", 100, actual_completion,
         py_int (inject_Z tasks_total * (inject_Z actual_completion / 100)))
  else if Qlt_bool status_roll (85 # 100) then
    actual_completion <- randint 70 90 ;;
    ret ("Delayed", 100, actual_completion,
         py_int (inject_Z tasks_total * (inject_Z actual_completion / 100)))
  else if Qlt_bool status_roll (95 # 100) then
    ret ("Not Started", 100, 0, 0)
  else
    actual_completion <- randint 20 60 ;;
    ret ("On Hold", 100, actual_completion,
         py_int (inject_Z tasks_total * (inject_Z actual_completion / 100))).

Definition draw_hours_variance (status : string) (actual_completion : Z)
    : Rand Q :=
  if String.eqb status "Completed" then uniform (- (10 # 100)) (25 # 100)
  else if String.eqb status "In Progress" then
    uniform 0 (inject_Z actual_completion / 100)
  else uniform 0 (5 # 10).

Definition generate_realistic_project (dept_name : string)
    (project_id : Z) (project_name : string) (config : DeptConfig)
    : Rand Project :=
  manager <- choice (cfg_managers config) ;;
  month <- randint 7 12 ;;
  day <- randint 1 28 ;;
  let start_date := ymd2ord 2024 month day in
  duration_days <-
    randint (fst (duration_range config)) (snd (duration_range config)) ;;
  let end_date := start_date + duration_days in
  planned_cost <-
    randint (fst (cost_range config)) (snd (cost_range config)) ;;
  cost_variance <- uniform (- (15 # 100)) (20 # 100) ;;
  let actual_cost :=
    py_round2 (inject_Z planned_cost * (1 + cost_variance)) in
  tasks_total <- randint 30 80 ;;
  '(status, planned_completion, actual_completion, tasks_completed) <-
    roll_status tasks_total ;;
  planned_hours <- randint 400 1200 ;;
  hours_variance <- draw_hours_variance status actual_completion ;;
  let actual_hours :=
    py_int (inject_Z planned_hours * (1 + hours_variance)) in
  ret {| Project_ID := project_id;
         Department := dept_name;
         Project_Name := project_name;
         Manager := manager;
         Start_Date := start_date;
         End_Date := end_date;
         Planned_Cost := inject_Z planned_cost;
         Actual_Cost := actual_cost;
         Planned_Completion := planned_completion;
         Actual_Completion := actual_completion;
         Status := status;
         Tasks_Total := tasks_total;
         Tasks_Completed := tasks_completed;
         Planned_Hours := planned_hours;
         Actual_Hours := actual_hours |}.

(** A configuration the generator can run on: a non-empty roster and
    non-empty ranges of positive costs and durations. *)
Definition config_ok (config : DeptConfig) : Prop :=
  cfg_managers config <> []
  /\ 0 < fst (cost_range config) <= snd (cost_range config)
  /\ 0 < fst (duration_range config) <= snd (duration_range config).

(** A tape for examples: cell [n] holds [7919 * n + 13]. *)
Definition example_tape : tape := fun n => 7919 * Z.of_nat n + 13.

Local Close Scope rand_scope.

(** ** The validator: [validate_datasets] *)

(** One line of a CSV file as [pd.read_csv] types it: a missing cell
    (NaN) is [None]; cells under columns outside the expected set are
    kept as text. *)
Record CsvRow : Type := mkCsvRow {
  csv_Project_ID : option Z;
  csv_Department : option string;
  csv_Project_Name : option string;
  csv_Manager : option string;
  csv_Start_Date : option string;
  csv_End_Date : option string;
  csv_Planned_Cost : option Q;
  csv_Actual_Cost : option Q;
  csv_Planned_Completion : option Z;
  csv_Actual_Completion : option Z;
  csv_Status : option string;
  csv_Tasks_Total : option Z;
  csv_Tasks_Completed : option Z;
  csv_Planned_Hours : option Z;
  csv_Actual_Hours : option Z;
  csv_other : gmap string string
}.

Record DataFrame : Type := mkDataFrame {
  columns : list string;
  rows : list CsvRow
}.

Definition expected_columns : list string :=
  ["Project_ID"; "Department"; "Project_Name"; "Manager";
   "Start_Date"; "End_Date"; "Planned_Cost"; "Actual_Cost";
   "Planned_Completion"; "Actual_Completion"; "Status";
   "Tasks_Total"; "Tasks_Completed"; "Planned_Hours"; "Actual_Hours"].

Definition is_null {A : Type} (c : option A) : bool :=
  match c with Some _ => false | None => true end.

(** [pd.isnull] of the cell of row [r] under column [c]. *)
Definition cell_isnull (r : CsvRow) (c : string) : bool :=
  if String.eqb c "Project_ID" then is_null (csv_Project_ID r)
  else if String.eqb c "Department" then is_null (csv_Department r)
  else if String.eqb c "Project_Name" then is_null (csv_Project_Name r)
  else if String.eqb c "Manager" then is_null (csv_Manager r)
  else if String.eqb c "Start_Date" then is_null (csv_Start_Date r)
  else if String.eqb c "End_Date" then is_null (csv_End_Date r)
  else if String.eqb c "Planned_Cost" then is_null (csv_Planned_Cost r)
  else if String.eqb c "Actual_Cost" then is_null (csv_Actual_Cost r)
  else if String.eqb c "Planned_Completion" then
    is_null (csv_Planned_Completion r)
  else if String.eqb c "Actual_Completion" then
    is_null (csv_Actual_Completion r)
  else if String.eqb c "Status" then is_null (csv_Status r)
  else if String.eqb c "Tasks_Total" then is_null (csv_Tasks_Total r)
  else if String.eqb c "Tasks_Completed" then is_null (csv_Tasks_Completed r)
  else if String.eqb c "Planned_Hours" then is_null (csv_Planned_Hours r)
  else if String.eqb c "Actual_Hours" then is_null (csv_Actual_Hours r)
  else is_null (csv_other r !! c).

(** A cell survives [pd.concat] only under a column its own frame has;
    under the columns of the other frames the row gets NaN. *)
Definition keep {A : Type} (cols : list string) (c : string)
    (v : option A) : option A :=
  if bool_decide (c ∈ cols) then v else None.

Definition reindex (cols : list string) (r : CsvRow) : CsvRow :=
  {| csv_Project_ID := keep cols "Project_ID" (csv_Project_ID r);
     csv_Department := keep cols "Department" (csv_Department r);
     csv_Project_Name := keep cols "Project_Name" (csv_Project_Name r);
     csv_Manager := keep cols "Manager" (csv_Manager r);
     csv_Start_Date := keep cols "Start_Date" (csv_Start_Date r);
     csv_End_Date := keep cols "End_Date" (csv_End_Date r);
     csv_Planned_Cost := keep cols "Planned_Cost" (csv_Planned_Cost r);
     csv_Actual_Cost := keep cols "Actual_Cost" (csv_Actual_Cost r);
     csv_Planned_Completion :=
       keep cols "Planned_Completion" (csv_Planned_Completion r);
     csv_Actual_Completion :=
       keep cols "Actual_Completion" (csv_Actual_Completion r);
     csv_Status := keep cols "Status" (csv_Status r);
     csv_Tasks_Total := keep cols "Tasks_Total" (csv_Tasks_Total r);
     csv_Tasks_Completed :=
       keep cols "Tasks_Completed" (csv_Tasks_Completed r);
     csv_Planned_Hours := keep cols "Planned_Hours" (csv_Planned_Hours r);
     csv_Actual_Hours := keep cols "Actual_Hours" (csv_Actual_Hours r);
     csv_other :=
       filter (fun kv : string * string => kv.1 ∈ cols) (csv_other r) |}.

(** [pd.concat(dfs, ignore_index=True)]: the union of the columns in
    order of first appearance, the rows one frame after the other. *)
Definition pd_concat (dfs : list DataFrame) : DataFrame :=
  {| columns := drop_duplicates (flat_map columns dfs);
     rows := flat_map (fun df => map (reindex (columns df)) (rows df)) dfs |}.

(** What the validator reports. *)
Inductive issue : Type :=
| MissingColumns (name : string) (cols : list string)
| ExtraColumns (name : string) (cols : list string)
| DuplicateProjectIDs (ids : list (option Z))
| MissingValues (col : string) (count : nat)
| InvalidDateFormats (invalid_start invalid_end : nat)
| InvalidDateRanges (count : nat)
| NonPositiveCosts
| CompletionOutOfRange
| InvalidTaskCounts (count : nat)
| InvalidStatusValues
| InvalidHours.

(** What it only prints behind a warning sign. *)
Inductive warning : Type :=
| ExtremeCostVariance (count : nat)
| OutsideExpectedCostRange (dept : string) (count : nat).

(** The local variables [validation_passed] and [issues], and the
    warnings printed so far. *)
Record report : Type := mkReport {
  validation_passed : bool;
  issues : list issue;
  warnings : list warning
}.

(** A run ends by returning a value or by an uncaught exception. *)
Inductive outcome (A : Type) : Type :=
| Done (a : A)
| Raised (exn : string).
Arguments Done {A} a.
Arguments Raised {A} exn.

Definition Validation (A : Type) : Type := report -> outcome A * report.

Definition pass {A : Type} (a : A) : Validation A := fun st => (Done a, st).

Definition and_then {A B : Type} (m : Validation A) (k : A -> Validation B)
    : Validation B :=
  fun st => match m st with
            | (Done a, st') => k a st'
            | (Raised e, st') => (Raised e, st')
            end.

Definition throw {A : Type} (exn : string) : Validation A :=
  fun st => (Raised exn, st).

Declare Scope check_scope.
Notation "x <- m ;; k" := (and_then m (fun x => k))
  (at level 20, m at level 99, k at level 200, only parsing) : check_scope.
Local Open Scope check_scope.

(** [issues.append(...)] for each entry, then
    [validation_passed = False]. *)
Definition fail_with (found : list issue) : Validation unit :=
  fun st => (Done tt, {| validation_passed := false;
                         issues := issues st ++ found;
                         warnings := warnings st |}).

Definition warn (w : warning) : Validation unit :=
  fun st => (Done tt, {| validation_passed := validation_passed st;
                         issues := issues st;
                         warnings := warnings st ++ [w] |}).

(** [df[c]]: [KeyError] when the frame has no such column. *)
Definition series {A : Type} (df : DataFrame) (c : string)
    (cell : CsvRow -> option A) : Validation (list (option A)) :=
  if bool_decide (c ∈ columns df) then pass (map cell (rows df))
  else throw "KeyError".

Definition nonempty {A : Type} (l : list A) : bool :=
  match l with [] => false | _ => true end.

(** Step 1, the body of the loop over the three frames. *)
Definition check_schema (name : string) (df : DataFrame) : Validation unit :=
  let missing_cols := list_difference expected_columns (columns df) in
  let extra_cols := list_difference (columns df) expected_columns in
  if nonempty missing_cols || nonempty extra_cols then
    fail_with
      ((if nonempty missing_cols then [MissingColumns name missing_cols]
        else [])
       ++ (if nonempty extra_cols then [ExtraColumns name extra_cols]
           else []))
  else pass tt.

(** Check 2.1: [duplicated(subset=['Project_ID'], keep=False)]. *)
Definition check_project_ids (all_data : DataFrame) : Validation unit :=
  all_ids <- series all_data "Project_ID" csv_Project_ID ;;
  let duplicate_ids :=
    List.filter
      (fun i =>
         (1 <? length (List.filter (fun j => bool_decide (j = i)) all_ids))%nat)
      all_ids in
  if nonempty duplicate_ids then
    fail_with [DuplicateProjectIDs duplicate_ids]
  else pass tt.

(** Check 2.2 only prints, but reads [Project_ID] of every frame. *)
Definition check_id_ranges (marketing operations it : DataFrame)
    : Validation unit :=
  marketing_ids <- series marketing "Project_ID" csv_Project_ID ;;
  operations_ids <- series operations "Project_ID" csv_Project_ID ;;
  it_ids <- series it "Project_ID" csv_Project_ID ;;
  pass tt.

(** Check 2.3: [all_data.isnull().sum()]. *)
Definition check_missing_values (all_data : DataFrame) : Validation unit :=
  let missing_summary :=
    map (fun c =>
           (c, length (List.filter (fun r => cell_isnull r c)
                         (rows all_data))))
      (columns all_data) in
  let total_missing := sum_list (map snd missing_summary) in
  if (0 <? total_missing)%nat then
    fail_with
      (map (fun '(col, count) => MissingValues col count)
         (List.filter (fun kv : string * nat => (0 <? kv.2)%nat)
            missing_summary))
  else pass tt.

(** Comparisons of a numeric cell with a constant: NaN compares false. *)
Definition cellQ (test : Q -> bool) (c : option Q) : bool :=
  match c with Some q => test q | None => false end.

Definition cellZ (test : Z -> bool) (c : option Z) : bool :=
  match c with Some z => test z | None => false end.

Section Dates.

(** [pd.to_datetime(..., errors='coerce')] on one non-null cell: the
    ordinal of the date, or NaT ([None]) for text it cannot parse. *)
Variable to_datetime : string -> option Z.

(** Checks 3.1 and 3.2. *)
Definition check_dates (all_data : DataFrame) : Validation unit :=
  start_text <- series all_data "Start_Date" csv_Start_Date ;;
  end_text <- series all_data "End_Date" csv_End_Date ;;
  let start_date := map (fun c => c ≫= to_datetime) start_text in
  let end_date := map (fun c => c ≫= to_datetime) end_text in
  let invalid_start := length (List.filter is_null start_date) in
  let invalid_end := length (List.filter is_null end_date) in
  _ <- (if (0 <? invalid_start)%nat || (0 <? invalid_end)%nat then
          fail_with [InvalidDateFormats invalid_start invalid_end]
        else pass tt) ;;
  let duration_days :=
    zip_with (fun e s => match e, s with
                         | Some e, Some s => Some (e - s)
                         | _, _ => None
                         end) end_date start_date in
  let invalid_duration :=
    List.filter (cellZ (fun d => d <=? 0)) duration_days in
  if nonempty invalid_duration then
    fail_with [InvalidDateRanges (length invalid_duration)]
  else pass tt.

End Dates.

(** [(Actual_Cost - Planned_Cost) / Planned_Cost * 100] on two cells. *)
Definition cost_variance_cell (actual planned : option Q) : float64 :=
  match actual, planned with
  | Some a, Some p => f64_scale (f64_div (a - p) p) 100
  | _, _ => NaN
  end.

(** [abs(x) > 50]. *)
Definition f64_abs_gt (x : float64) (bound : Q) : bool :=
  match x with
  | Fin q => Qlt_bool bound (Qabs q)
  | PosInf | NegInf => true
  | NaN => false
  end.

(** Check 4.1 and the cost variance analysis that follows it. *)
Definition check_costs (all_data : DataFrame) : Validation unit :=
  planned_cost <- series all_data "Planned_Cost" csv_Planned_Cost ;;
  actual_cost <- series all_data "Actual_Cost" csv_Actual_Cost ;;
  let negative_planned :=
    List.filter (cellQ (fun q => Qle_bool q 0)) planned_cost in
  let negative_actual :=
    List.filter (cellQ (fun q => Qle_bool q 0)) actual_cost in
  _ <- (if nonempty negative_planned || nonempty negative_actual then
          fail_with [NonPositiveCosts]
        else pass tt) ;;
  let cost_variance_pct :=
    zip_with cost_variance_cell actual_cost planned_cost in
  let extreme_variance :=
    List.filter (fun x => f64_abs_gt x 50) cost_variance_pct in
  if nonempty extreme_variance then
    warn (ExtremeCostVariance (length extreme_variance))
  else pass tt.

(** Check 4.2. *)
Definition check_completion (all_data : DataFrame) : Validation unit :=
  planned <- series all_data "Planned_Completion" csv_Planned_Completion ;;
  actual <- series all_data "Actual_Completion" csv_Actual_Completion ;;
  let out_of_range (c : option Z) : bool :=
    cellZ (fun z => z <? 0) c || cellZ (fun z => 100 <? z) c in
  let invalid_planned := List.filter out_of_range planned in
  let invalid_actual := List.filter out_of_range actual in
  if nonempty invalid_planned || nonempty invalid_actual then
    fail_with [CompletionOutOfRange]
  else pass tt.

(** Check 4.3. *)
Definition check_tasks (all_data : DataFrame) : Validation unit :=
  completed <- series all_data "Tasks_Completed" csv_Tasks_Completed ;;
  total <- series all_data "Tasks_Total" csv_Tasks_Total ;;
  let invalid_tasks :=
    List.filter (fun ct : option Z * option Z =>
                   match ct with
                   | (Some c, Some t) => t <? c
                   | _ => false
                   end)
      (zip completed total) in
  if nonempty invalid_tasks then
    fail_with [InvalidTaskCounts (length invalid_tasks)]
  else pass tt.

(** Check 4.4: a missing status is not in the list either. *)
Definition check_status (all_data : DataFrame) : Validation unit :=
  status <- series all_data "Status" csv_Status ;;
  let invalid_status :=
    List.filter (fun c : option string =>
                   match c with
                   | Some s => negb (status_in s valid_statuses)
                   | None => true
                   end)
      status in
  if nonempty invalid_status then fail_with [InvalidStatusValues]
  else pass tt.

(** Check 4.5. *)
Definition check_hours (all_data : DataFrame) : Validation unit :=
  planned <- series all_data "Planned_Hours" csv_Planned_Hours ;;
  actual <- series all_data "Actual_Hours" csv_Actual_Hours ;;
  let negative_hours :=
    List.filter (fun pa : option Z * option Z =>
                   cellZ (fun z => z <=? 0) pa.1
                   || cellZ (fun z => z <? 0) pa.2)
      (zip planned actual) in
  if nonempty negative_hours then fail_with [InvalidHours] else pass tt.

(** Step 5, the body of the loop over the departments. *)
Definition check_department (dept : string) (df : DataFrame)
    (expected_range : Q * Q) : Validation unit :=
  planned_cost <- series df "Planned_Cost" csv_Planned_Cost ;;
  let out_of_range :=
    List.filter (fun c => cellQ (fun q => Qlt_bool q expected_range.1) c
                          || cellQ (fun q => Qlt_bool expected_range.2 q) c)
      planned_cost in
  if nonempty out_of_range then
    warn (OutsideExpectedCostRange dept (length out_of_range))
  else pass tt.

(** [return validation_passed]. *)
Definition return_validation_passed : Validation bool :=
  fun st => (Done (validation_passed st), st).

(** The three CSV files as [pd.read_csv] finds them, [None] when the
    file does not exist. *)
Record CsvInputs : Type := mkCsvInputs {
  marketing_csv : option DataFrame;
  operations_csv : option DataFrame;
  it_csv : option DataFrame
}.

(** Sections 2 to 5 of the report and the final [return]. *)
Definition checks_after_schema (to_datetime : string -> option Z)
    (marketing operations it : DataFrame) : Validation bool :=
  let all_data := pd_concat [marketing; operations; it] in
  _ <- check_project_ids all_data ;;
  _ <- check_id_ranges marketing operations it ;;
  _ <- check_missing_values all_data ;;
  _ <- check_dates to_datetime all_data ;;
  _ <- check_costs all_data ;;
  _ <- check_completion all_data ;;
  _ <- check_tasks all_data ;;
  _ <- check_status all_data ;;
  _ <- check_hours all_data ;;
  _ <- check_department "Marketing" marketing (10000, 50000)%Q ;;
  _ <- check_department "Operations" operations (15000, 75000)%Q ;;
  _ <- check_department "IT" it (20000, 100000)%Q ;;
  return_validation_passed.

(** Everything after the files are loaded: the schema check of each
    frame (section 1), then the checks on the records. *)
Definition validate_frames (to_datetime : string -> option Z)
    (marketing operations it : DataFrame) : Validation bool :=
  _ <- check_schema "Marketing" marketing ;;
  _ <- check_schema "Operations" operations ;;
  _ <- check_schema "IT" it ;;
  checks_after_schema to_datetime marketing operations it.

(** [validate_datasets()]: the value returned (or the exception that
    escapes), the issues collected and the warnings printed.  A missing
    file makes it return [False] before any check has run. *)
Definition validate_datasets (to_datetime : string -> option Z)
    (files : CsvInputs) : outcome bool * list issue * list warning :=
  match marketing_csv files, operations_csv files, it_csv files with
  | Some marketing, Some operations, Some it =>
      let '(out, st) :=
        validate_frames to_datetime marketing operations it
          {| validation_passed := true; issues := []; warnings := [] |} in
      (out, issues st, warnings st)
  | _, _, _ => (Done false, [], [])
  end.

(** The script's entry point calls [validate_datasets()] and drops its
    value: the process exits with status 0 unless an exception escapes
    (status 1). *)
Definition validate_data_main (to_datetime : string -> option Z)
    (files : CsvInputs) : Z :=
  match validate_datasets to_datetime files with
  | (Done _, _, _) => 0
  | (Raised _, _, _) => 1
  end.

Local Close Scope check_scope.

(** The returned value, the issues and the warnings of a run. *)
Definition result_of {A : Type} (run : outcome A * list issue * list warning)
    : outcome A := run.1.1.


Definition warnings_of {A : Type}
    (run : outcome A * list issue * list warning) : list warning := run.2.

(** A parser for the ISO dates the generator writes
    ([strftime('%Y-%m-%d')]), used to run the validator on examples. *)
Definition digit (c : ascii) : option Z :=
  let n := nat_of_ascii c in
  if (48 <=? n)%nat && (n <=? 57)%nat then Some (Z.of_nat (n - 48))
  else None.

Fixpoint digits (s : string) (acc : Z) : option Z :=
  match s with
  | EmptyString => Some acc
  | String c s' =>
      match digit c with
      | Some d => digits s' (10 * acc + d)
      | None => None
      end
  end.

Definition iso_to_datetime (s : string) : option Z :=
  match digits (substring 0 4 s) 0, digits (substring 5 2 s) 0,
        digits (substring 8 2 s) 0 with
  | Some y, Some m, Some d =>
      if (String.length s =? 10)%nat
         && String.eqb (substring 4 1 s) "-"
         && String.eqb (substring 7 1 s) "-"
         && (1 <=? y) && (1 <=? m) && (m <=? 12)
         && (1 <=? d) && (d <=? days_in_month y m)
      then Some (ymd2ord y m d)
      else None
  | _, _, _ => None
  end.

(** ** Vocabulary of the statements *)

(** The rest of the classification once the band test has failed. *)
Definition over_or_under (r : Project) : string :=
  if Qlt_bool (Planned_Cost r) (Actual_Cost r) then "Over Budget"
  else "Under Budget".



(** [hoare total m P]: whenever [m] returns, its value satisfies [P];
    when [total] is set, [m] moreover returns on every tape. *)
Definition hoare {A : Type} (total : bool) (m : Rand A) (P : A -> Prop)
    : Prop :=
  forall s, match m s with
            | Some (a, _) => P a
            | None => total = false
            end.

(** [keeps Inv m]: a run of [m] from a state satisfying [Inv] ends,
    normally or not, in a state satisfying [Inv]. *)
Definition keeps (Inv : report -> Prop) {A : Type} (m : Validation A) : Prop :=
  forall st, Inv st -> Inv (m st).2.

(** [total m]: no exception escapes [m]. *)
Definition total {A : Type} (m : Validation A) : Prop :=
  forall st, exists a, (m st).1 = Done a.

(** The flag is still set exactly when no issue has been recorded. *)
Definition consistent (st : report) : Prop :=
  validation_passed st = true <-> issues st = [].


(** A frame with every expected column. *)
Definition complete (df : DataFrame) : Prop :=
  forall c, c ∈ expected_columns -> c ∈ columns df.

(** ** Sample rows *)

(** A completed Marketing project with the given costs. *)
Definition sample_row (planned actual : Q) : Project :=
  {| Project_ID := 1001;
     Department := "Marketing";
     Project_Name := "Website Redesign";
     Manager := "John Smith";
     Start_Date := ymd2ord 2024 7 1;
     End_Date := ymd2ord 2024 8 12;
     Planned_Cost := planned;
     Actual_Cost := actual;
     Planned_Completion := 100;
     Actual_Completion := 100;
     Status := "Completed";
     Tasks_Total := 40;
     Tasks_Completed := 40;
     Planned_Hours := 400;
     Actual_Hours := 460 |}.

(** A row that ends the day it starts, costs nothing and has no planned
    hours and a negative number of worked hours. *)
Definition degenerate_row : Project :=
  {| Project_ID := 1002;
     Department := "Marketing";
     Project_Name := "SEO Optimization Project";
     Manager := "Sarah Lee";
     Start_Date := ymd2ord 2024 7 1;
     End_Date := ymd2ord 2024 7 1;
     Planned_Cost := 0;
     Actual_Cost := 0;
     Planned_Completion := 100;
     Actual_Completion := 0;
     Status := "Not Started";
     Tasks_Total := 0;
     Tasks_Completed := 0;
     Planned_Hours := 0;
     Actual_Hours := -5 |}.



(** One well-formed CSV line per department. *)
Definition csv_line (id : Z) (dept manager : string)
    (planned actual : Q) (tasks_completed : Z) : CsvRow :=
  {| csv_Project_ID := Some id;
     csv_Department := Some dept;
     csv_Project_Name := Some "Website Redesign";
     csv_Manager := Some manager;
     csv_Start_Date := Some "2024-07-01";
     csv_End_Date := Some "2024-08-12";
     csv_Planned_Cost := Some planned;
     csv_Actual_Cost := Some actual;
     csv_Planned_Completion := Some 100;
     csv_Actual_Completion := Some 100;
     csv_Status := Some "Completed";
     csv_Tasks_Total := Some 40;
     csv_Tasks_Completed := Some tasks_completed;
     csv_Planned_Hours := Some 400;
     csv_Actual_Hours := Some 460;
     csv_other := ∅ |}.

Definition frame_of (rows : list CsvRow) : DataFrame :=
  {| columns := expected_columns; rows := rows |}.

(** Three files that pass; the Marketing project costs 5000 as planned
    (below the advisory range) and 9000 in the end (80 percent over). *)
Definition inputs_with_warnings : CsvInputs :=
  {| marketing_csv :=
       Some (frame_of [csv_line 1001 "Marketing" "John Smith" 5000 9000 40]);
     operations_csv :=
       Some (frame_of
               [csv_line 2001 "Operations" "Priya Mehta" 20000 21000 40]);
     it_csv :=
       Some (frame_of [csv_line 3001 "IT" "Neha Sharma" 30000 31000 40]) |}.

(** The same with [marketing_projects.csv] absent. *)
Definition inputs_without_marketing : CsvInputs :=
  {| marketing_csv := None;
     operations_csv := operations_csv inputs_with_warnings;
     it_csv := it_csv inputs_with_warnings |}.

(** All files present, one project with 45 of 40 tasks completed. *)
Definition inputs_with_invalid_tasks : CsvInputs :=
  {| marketing_csv :=
       Some (frame_of
               [csv_line 1001 "Marketing" "John Smith" 20000 21000 45]);
     operations_csv := operations_csv inputs_with_warnings;
     it_csv := it_csv inputs_with_warnings |}.

(* ===================================================================== *)
(** * Part I, continued.  The rest of the scripts                         *)
(* ===================================================================== *)

(** ** The generator: [generate_department_dataset] and the script body *)

Local Open Scope rand_scope.

(** [random.sample(population, k)], by its selection from a pool: the
    drawn item leaves the pool, the last item of the pool takes its
    place.  [k] items are left to draw. *)
Fixpoint sample_pool (pool : list string) (k : nat) : Rand (list string) :=
  match k with
  | O => ret []
  | S k' =>
      j <- randbelow (Z.of_nat (length pool)) ;;
      match pool !! Z.to_nat j, last pool with
      | Some x, Some y =>
          rest <- sample_pool (take (length pool - 1) (<[Z.to_nat j := y]> pool))
                    k' ;;
          ret (x :: rest)
      | _, _ => raise
      end
  end.

(** [ValueError] when the sample is larger than the population or
    negative. *)
Definition sample (population : list string) (k : Z) : Rand (list string) :=
  if (0 <=? k) && (k <=? Z.of_nat (length population)) then
    sample_pool population (Z.to_nat k)
  else raise.

(** The loop [for i in range(num_projects)]: [project_names[i]] is the
    head of the names not used yet, [project_id] is [id_start + i]. *)
Fixpoint generate_projects (dept_name : string) (config : DeptConfig)
    (project_id : Z) (project_names : list string) : Rand (list Project) :=
  match project_names with
  | [] => ret []
  | project_name :: names =>
      project <-
        generate_realistic_project dept_name project_id project_name
          config ;;
      projects <- generate_projects dept_name config (project_id + 1) names ;;
      ret (project :: projects)
  end.

(** [generate_department_dataset(dept_name, id_start, num_projects)];
    [KeyError] for a department that [DEPT_CONFIG] does not have. *)
Definition generate_department_dataset (dept_name : string) (id_start : Z)
    (num_projects : Z) : Rand (list Project) :=
  match DEPT_CONFIG !! dept_name with
  | None => raise
  | Some config =>
      project_names <- sample (project_types config) num_projects ;;
      generate_projects dept_name config id_start project_names
  end.

(** The body of the script: the three datasets, drawn one after the
    other from the same source. *)
Definition generate_project_data
    : Rand (list Project * list Project * list Project) :=
  marketing_df <- generate_department_dataset "Marketing" 1001 20 ;;
  operations_df <- generate_department_dataset "Operations" 2001 20 ;;
  it_df <- generate_department_dataset "IT" 3001 20 ;;
  ret (marketing_df, operations_df, it_df).

Local Close Scope rand_scope.

(** What each status bucket fixes: the range of [Actual_Completion] and
    the number of completed tasks. *)
Definition bucket_ok (p : Project) : Prop :=
  Planned_Completion p = 100
  /\ ((Status p = "Completed" /\ Actual_Completion p = 100
       /\ Tasks_Completed p = Tasks_Total p)
      \/ (Status p = "In Progress" /\ 50 <= Actual_Completion p <= 95)
      \/ (Status p = "Delayed" /\ 70 <= Actual_Completion p <= 90)
      \/ (Status p = "Not Started" /\ Actual_Completion p = 0
          /\ Tasks_Completed p = 0)
      \/ (Status p = "On Hold" /\ 20 <= Actual_Completion p <= 60))
  /\ Tasks_Completed p
     = py_int (inject_Z (Tasks_Total p)
               * (inject_Z (Actual_Completion p) / 100)).

(** Where the fields of a generated record come from. *)
Definition drawn_from (dept_name : string) (project_id : Z)
    (project_name : string) (config : DeptConfig) (p : Project) : Prop :=
  Project_ID p = project_id
  /\ Department p = dept_name
  /\ Project_Name p = project_name
  /\ In (Manager p) (cfg_managers config)
  /\ ymd2ord 2024 7 1 <= Start_Date p <= ymd2ord 2024 12 28
  /\ (fst (duration_range config) <= End_Date p - Start_Date p
      <= snd (duration_range config))
  /\ (exists planned_cost : Z,
        Planned_Cost p = inject_Z planned_cost
        /\ fst (cost_range config) <= planned_cost <= snd (cost_range config))
  /\ 30 <= Tasks_Total p <= 80
  /\ 400 <= Planned_Hours p <= 1200.

(** The spread of the actual cost and of the worked hours around the
    plan. *)
Definition cost_spread_ok (p : Project) : Prop :=
  ((85 # 100) * Planned_Cost p <= Actual_Cost p
   <= (120 # 100) * Planned_Cost p)%Q.

Definition hours_spread_ok (p : Project) : Prop :=
  (Status p = "Completed" ->
   9 * Planned_Hours p - 10 < 10 * Actual_Hours p
   /\ 4 * Actual_Hours p <= 5 * Planned_Hours p)
  /\ (Status p = "In Progress" ->
      Planned_Hours p <= Actual_Hours p
      /\ 100 * Actual_Hours p
         <= Planned_Hours p * (100 + Actual_Completion p))
  /\ (Status p <> "Completed" -> Status p <> "In Progress" ->
      Planned_Hours p <= Actual_Hours p
      /\ 2 * Actual_Hours p <= 3 * Planned_Hours p).

(** The records a run of the loop of [generate_department_dataset]
    returns for the names [project_names], the first of them under
    [project_id]. *)
Inductive generated_as (dept_name : string) (config : DeptConfig)
    : Z -> list string -> list Project -> Prop :=
| generated_nil project_id : generated_as dept_name config project_id [] []
| generated_cons project_id project_name names p ps :
    bucket_ok p ->
    drawn_from dept_name project_id project_name config p ->
    hours_spread_ok p ->
    (0 <= fst (cost_range config) -> cost_spread_ok p) ->
    generated_as dept_name config (project_id + 1) names ps ->
    generated_as dept_name config project_id (project_name :: names)
      (p :: ps).

(** ** The report queries of [test_database_queries.py] *)

(** TEST 5, the [CASE] that names the budget category of a row.  A NULL
    percentage fails every [WHEN] and falls to the [ELSE]. *)
Definition budget_category (r : Project) : string :=
  let below (bound : Q) : bool :=
    sql_when (option_map (fun x => Qle_bool x bound) (cost_variance_raw r)) in
  if below (-10)%Q then "Significantly Under Budget"
  else if below 0%Q then "Under Budget"
  else if below 10%Q then "Within Budget"
  else "Over Budget".


(** ** Vocabulary for the verdict of the validator *)

(** A frame whose columns are the expected ones, in any order. *)
Definition schema_ok (df : DataFrame) : Prop :=
  forall c, c ∈ columns df <-> c ∈ expected_columns.

(** A record with every cell present that none of the checks on the
    dates and on the business rules objects to. *)
Definition row_valid (to_datetime : string -> option Z) (r : CsvRow)
    : Prop :=
  is_Some (csv_Project_ID r) /\ is_Some (csv_Department r)
  /\ is_Some (csv_Project_Name r) /\ is_Some (csv_Manager r)
  /\ (exists start_date end_date,
        csv_Start_Date r ≫= to_datetime = Some start_date
        /\ csv_End_Date r ≫= to_datetime = Some end_date
        /\ start_date < end_date)
  /\ (exists planned actual,
        csv_Planned_Cost r = Some planned /\ csv_Actual_Cost r = Some actual
        /\ (0 < planned)%Q /\ (0 < actual)%Q)
  /\ (exists planned actual,
        csv_Planned_Completion r = Some planned
        /\ csv_Actual_Completion r = Some actual
        /\ 0 <= planned <= 100 /\ 0 <= actual <= 100)
  /\ (exists total completed,
        csv_Tasks_Total r = Some total
        /\ csv_Tasks_Completed r = Some completed
        /\ completed <= total)
  /\ (exists status, csv_Status r = Some status /\ In status valid_statuses)
  /\ (exists planned actual,
        csv_Planned_Hours r = Some planned /\ csv_Actual_Hours r = Some actual
        /\ 0 < planned /\ 0 <= actual).

(** [verdict c m]: [m] returns, and its flag is set at the end exactly
    when it was set at the start and [c] holds. *)
Definition verdict {A : Type} (c : Prop) (m : Validation A) : Prop :=
  forall st, exists a st',
    m st = (Done a, st')
    /\ (validation_passed st' = true <-> validation_passed st = true /\ c).

(** How often a value occurs in a column. *)
Definition occurrences {A : Type} `{EqDecision A} (i : A) (l : list A)
    : nat :=
  length (List.filter (fun j => bool_decide (j = i)) l).

(** ** Vocabulary for the loader *)



(** ** Writing the datasets and reading them back *)

(** [datetime._ord2ymd]: year, month and day of an ordinal. *)
Definition ord2ymd (ordinal : Z) : Z * Z * Z :=
  let n := ordinal - 1 in
  let n400 := n / 146097 in
  let n := n mod 146097 in
  let n100 := n / 36524 in
  let n := n mod 36524 in
  let n4 := n / 1461 in
  let n := n mod 1461 in
  let n1 := n / 365 in
  let n := n mod 365 in
  let year := n400 * 400 + 1 + n100 * 100 + n4 * 4 + n1 in
  if (n1 =? 4) || (n100 =? 4) then (year - 1, 12, 31)
  else
    let month := Z.shiftr (n + 50) 5 in
    let preceding := days_before_month year month in
    if n <? preceding then
      (year, month - 1, n - (preceding - days_in_month year (month - 1)) + 1)
    else (year, month, n - preceding + 1).

(** The decimal digits of [n], padded with zeros to [width]. *)
Fixpoint zero_padded (width : nat) (n : Z) : string :=
  match width with
  | O => ""
  | S w =>
      zero_padded w (n / 10)
      ++ String (ascii_of_nat (48 + Z.to_nat (n mod 10))) ""
  end.

(** [date.strftime('%Y-%m-%d')] of the date with the given ordinal, for
    the years of four digits. *)
Definition strftime (ordinal : Z) : string :=
  let '(y, m, d) := ord2ymd ordinal in
  zero_padded 4 y ++ "-" ++ zero_padded 2 m ++ "-" ++ zero_padded 2 d.

(** The texts [pd.read_csv] takes for a missing value. *)
Definition na_values : list string :=
  [""; "#N/A"; "#N/A N/A"; "#NA"; "-1.#IND"; "-1.#QNAN"; "-NaN"; "-nan";
   "1.#IND"; "1.#QNAN"; "<NA>"; "N/A"; "NA"; "NULL"; "NaN"; "None";
   "n/a"; "nan"; "null"].

(** A text cell as it is read back. *)
Definition read_text (s : string) : option string :=
  if existsb (String.eqb s) na_values then None else Some s.

(** One record of a dataset after [to_csv(..., index=False)] and
    [pd.read_csv]: the numbers come back as written, the dates as the
    text [strftime] made of them. *)
Definition csv_row (p : Project) : CsvRow :=
  {| csv_Project_ID := Some (Project_ID p);
     csv_Department := read_text (Department p);
     csv_Project_Name := read_text (Project_Name p);
     csv_Manager := read_text (Manager p);
     csv_Start_Date := read_text (strftime (Start_Date p));
     csv_End_Date := read_text (strftime (End_Date p));
     csv_Planned_Cost := Some (Planned_Cost p);
     csv_Actual_Cost := Some (Actual_Cost p);
     csv_Planned_Completion := Some (Planned_Completion p);
     csv_Actual_Completion := Some (Actual_Completion p);
     csv_Status := read_text (Status p);
     csv_Tasks_Total := Some (Tasks_Total p);
     csv_Tasks_Completed := Some (Tasks_Completed p);
     csv_Planned_Hours := Some (Planned_Hours p);
     csv_Actual_Hours := Some (Actual_Hours p);
     csv_other := ∅ |}.

(** The frame read back from the file written for a dataset of at least
    one record: the keys of the record, in the order of the [return] of
    [generate_realistic_project], are the columns.  ([pd.DataFrame([])]
    has no column at all.) *)
Definition csv_frame (ps : list Project) : DataFrame :=
  {| columns := match ps with [] => [] | _ => expected_columns end;
     rows := map csv_row ps |}.

(** The three files the script writes, as the validator finds them. *)
Definition written_files (datasets : list Project * list Project * list Project)
    : CsvInputs :=
  let '(marketing_df, operations_df, it_df) := datasets in
  {| marketing_csv := Some (csv_frame marketing_df);
     operations_csv := Some (csv_frame operations_df);
     it_csv := Some (csv_frame it_df) |}.

(* ===================================================================== *)
(** * Part II.  Properties                                                *)
(* ===================================================================== *)

(** ** Rounding *)


Section Rounding.
Local Open Scope Q_scope.


Lemma Qfloor_bounds (x : Q) :
  inject_Z (Qfloor x) <= x < inject_Z (Qfloor x) + 1.
Proof.
  split; [apply Qfloor_le |].
  pose proof (Qlt_floor x) as H.
  rewrite inject_Z_plus in H. exact H.
Qed.

Lemma Qle_bool_false (x y : Q) : Qle_bool x y = false -> y < x.
Proof.
  intros H. apply Qnot_le_lt. intros Hle.
  apply Qle_bool_iff in Hle. congruence.
Qed.

Lemma Qlt_bool_iff (x y : Q) : Qlt_bool x y = true <-> x < y.
Proof.
  unfold Qlt_bool. rewrite negb_true_iff. split.
  - apply Qle_bool_false.
  - intros H. destruct (Qle_bool y x) eqn:E; [| reflexivity].
    apply Qle_bool_iff in E. lra.
Qed.







End Rounding.

(** ** The CHECK constraints of [projects] *)

Lemma status_in_In (s : string) (l : list string) :
  status_in s l = true <-> In s l.
Proof.
  unfold status_in. rewrite existsb_exists. split.
  - intros (x & Hx & Heq). apply String.eqb_eq in Heq. now subst.
  - intros H. exists s. split; [exact H | apply String.eqb_refl].
Qed.

(** C4 (as amended).  A row accepted by the CHECK constraints of
    [projects] has non-negative (not necessarily positive) planned and
    actual cost, both completion percentages in [0,100],
    [Tasks_Completed <= Tasks_Total] and a status from the enumerated
    set; nothing is enforced about the dates or the hours. *)
Theorem projects_check_sound (r : Project) :
  projects_check r = true ->
  (0 <= Planned_Cost r)%Q /\ (0 <= Actual_Cost r)%Q
  /\ 0 <= Planned_Completion r <= 100
  /\ 0 <= Actual_Completion r <= 100
  /\ Tasks_Completed r <= Tasks_Total r
  /\ In (Status r) valid_statuses.
Proof.
  unfold projects_check. intros H.
  repeat (apply andb_prop in H; destruct H as [H ?]).
  repeat match goal with
         | X : (_ && _)%bool = true |- _ => apply andb_prop in X; destruct X
         | X : Qle_bool _ _ = true |- _ => apply Qle_bool_iff in X
         | X : (_ <=? _) = true |- _ => apply Z.leb_le in X
         | X : status_in _ _ = true |- _ => apply status_in_In in X
         end.
  repeat split; assumption.
Qed.

Lemma projects_check_sound_witness :
  projects_check (sample_row 1000 1100) = true
  /\ In (Status (sample_row 1000 1100)) valid_statuses.
Proof.
  split; [reflexivity |].
  apply (projects_check_sound (sample_row 1000 1100)). reflexivity.
Defined.

(** The constraints are exactly those six conditions. *)
Lemma projects_check_complete (r : Project) :
  (0 <= Planned_Cost r)%Q -> (0 <= Actual_Cost r)%Q ->
  0 <= Planned_Completion r <= 100 ->
  0 <= Actual_Completion r <= 100 ->
  Tasks_Completed r <= Tasks_Total r ->
  In (Status r) valid_statuses ->
  projects_check r = true.
Proof.
  intros Hp Ha [Hp0 Hp1] [Ha0 Ha1] Ht Hs. unfold projects_check.
  apply Qle_bool_iff in Hp, Ha. apply Z.leb_le in Hp0, Hp1, Ha0, Ha1, Ht.
  apply status_in_In in Hs.
  rewrite Hp, Ha, Hp0, Hp1, Ha0, Ha1, Ht, Hs. reflexivity.
Qed.

(** C4, counterexample.  [degenerate_row] passes every CHECK although
    its end date is not after its start date, both costs are zero,
    [Planned_Hours] is zero and [Actual_Hours] is negative. *)
Lemma projects_check_accepts_degenerate_row :
  projects_check degenerate_row = true
  /\ End_Date degenerate_row = Start_Date degenerate_row
  /\ (Planned_Cost degenerate_row == 0)%Q
  /\ (Actual_Cost degenerate_row == 0)%Q
  /\ Planned_Hours degenerate_row = 0
  /\ Actual_Hours degenerate_row = -5
  /\ (project_invariants degenerate_row -> False).
Proof.
  repeat split; try reflexivity.
  unfold project_invariants. cbn. lia.
Qed.

(** ** Delivery and budget classification *)

(** C6.  [Delivery_Status] is "On-Time" exactly for a Completed row at
    100 percent, "Delayed" for a Delayed row and "In-Progress" for every
    other row; a Completed row at 90 percent is "In-Progress". *)
Theorem delivery_status_spec (r : Project) :
  (Delivery_Status (kpi_metrics r) = "On-Time"
   <-> Status r = "Completed" /\ Actual_Completion r = 100)
  /\ (Status r = "Delayed" -> Delivery_Status (kpi_metrics r) = "Delayed")
  /\ (Status r <> "Delayed" ->
      ~ (Status r = "Completed" /\ Actual_Completion r = 100) ->
      Delivery_Status (kpi_metrics r) = "In-Progress")
  /\ (Status r = "Completed" -> Actual_Completion r = 90 ->
      Delivery_Status (kpi_metrics r) = "In-Progress").
Proof.
  cbn [Delivery_Status kpi_metrics]. unfold delivery_status.
  destruct (String.eqb_spec (Status r) "Completed") as [Hc | Hc];
    destruct (Z.eqb_spec (Actual_Completion r) 100) as [Ha | Ha];
    destruct (String.eqb_spec (Status r) "Delayed") as [Hd | Hd];
    cbn [andb];
    repeat split; intros; try congruence; try lia; try tauto;
    try discriminate.
Qed.

(** A positive planned cost makes both percentages finite. *)
Lemma cost_variance_raw_pos (r : Project) :
  (0 < Planned_Cost r)%Q ->
  cost_variance_raw r =
  Some ((Actual_Cost r - Planned_Cost r) / Planned_Cost r * 100)%Q
  /\ Cost_Variance_pct (transform_data r) =
     Fin (py_round2
            ((Actual_Cost r - Planned_Cost r) / Planned_Cost r * 100)).
Proof.
  intros Hpos.
  assert (Qeq_bool (Planned_Cost r) 0 = false) as E.
  { destruct (Qeq_bool (Planned_Cost r) 0) eqn:E; [| reflexivity].
    apply Qeq_bool_iff in E. rewrite E in Hpos.
    now apply Qlt_irrefl in Hpos. }
  unfold cost_variance_raw, sql_div. cbn [Cost_Variance_pct transform_data].
  unfold f64_div. rewrite E. split; reflexivity.
Qed.

(** [Budget_Status] is decided by the unrounded percentage. *)
Lemma budget_status_raw (r : Project) :
  Budget_Status (kpi_metrics r) =
  match cost_variance_raw r with
  | Some x => if Qle_bool (Qabs x) 10 then "Within Budget"
              else over_or_under r
  | None => over_or_under r
  end.
Proof.
  cbn [Budget_Status kpi_metrics]. unfold budget_status, over_or_under.
  destruct (cost_variance_raw r) as [x |]; reflexivity.
Qed.



(** ** Cost variance percentage: view against transform step *)




(** The unrounded percentages of the sample rows in IEEE binary64, the
    arithmetic SQLite and numpy run: exactly 0.125 (a tie at the third
    decimal) for 20000 and 20025, exactly 10 for 1000 and 1100, and a
    value above 10 for 100000 and 110004. *)
Example binary64_sample_percentages :
  ((20025 - 20000) / 20000 * 100 =? 0.125)%float = true
  /\ ((1100 - 1000) / 1000 * 100 =? 10)%float = true
  /\ (10 <? (110004 - 100000) / 100000 * 100)%float = true.
Proof. repeat split. Qed.

(** ** Zero divisors *)



(** ** The [managers] table after an import *)


Section Managers.





Lemma elem_of_drop_duplicates_from {A : Type} `{EqDecision A}
    (seen l : list A) (x : A) :
  x ∈ drop_duplicates_from seen l <-> x ∈ l /\ x ∉ seen.
Proof.
  revert seen. induction l as [| y l IH]; intros seen; cbn.
  - rewrite elem_of_nil. tauto.
  - destruct (decide (y ∈ seen)) as [Hy | Hy].
    + rewrite IH, elem_of_cons. split; [tauto |].
      intros [[-> | Hin] Hn]; [contradiction | tauto].
    + rewrite elem_of_cons, IH, !elem_of_cons.
      destruct (decide (x = y)) as [-> | Hne]; tauto.
Qed.

Lemma elem_of_drop_duplicates {A : Type} `{EqDecision A}
    (l : list A) (x : A) :
  x ∈ drop_duplicates l <-> x ∈ l.
Proof.
  unfold drop_duplicates. rewrite elem_of_drop_duplicates_from.
  rewrite elem_of_nil. tauto.
Qed.







End Managers.

(** ** The generator *)

Section Generator.

Lemma hoare_ret {A : Type} (t : bool) (a : A) (P : A -> Prop) :
  P a -> hoare t (ret a) P.
Proof. intros H s. exact H. Qed.

Lemma hoare_bind {A B : Type} (t : bool) (m : Rand A) (k : A -> Rand B)
    (P : A -> Prop) (Q : B -> Prop) :
  hoare t m P -> (forall a, P a -> hoare t (k a) Q) ->
  hoare t (bind m k) Q.
Proof.
  intros Hm Hk s. unfold bind. specialize (Hm s).
  destruct (m s) as [[a s'] |]; [| exact Hm]. apply (Hk a Hm s').
Qed.

Lemma hoare_weaken {A : Type} (t : bool) (m : Rand A) (P Q : A -> Prop) :
  hoare t m P -> (forall a, P a -> Q a) -> hoare t m Q.
Proof.
  intros Hm HPQ s. specialize (Hm s).
  destruct (m s) as [[a s'] |]; auto.
Qed.

Lemma hoare_randbelow (t : bool) (n : Z) :
  (t = true -> 0 < n) -> hoare t (randbelow n) (fun k => 0 <= k < n).
Proof.
  intros Hn s. unfold randbelow.
  destruct (Z.ltb_spec 0 n) as [Hpos | Hle].
  - cbn. apply Z.mod_pos_bound. exact Hpos.
  - cbn. destruct t; [| reflexivity]. specialize (Hn eq_refl). lia.
Qed.

Lemma hoare_randint (t : bool) (a b : Z) :
  (t = true -> a <= b) -> hoare t (randint a b) (fun v => a <= v <= b).
Proof.
  intros Hab. unfold randint.
  eapply hoare_bind; [apply hoare_randbelow; intros Ht; specialize (Hab Ht); lia |].
  intros k Hk. cbv beta in Hk. apply hoare_ret. lia.
Qed.

Lemma hoare_random (t : bool) :
  hoare t random (fun u => 0 <= u < 1)%Q.
Proof.
  intros s. cbn.
  pose proof (Z.mod_pos_bound (s 0%nat) (2 ^ 53) eq_refl) as [Hlo Hhi].
  unfold Qle, Qlt. cbn [Qnum Qden]. change (2 ^ 53) with 9007199254740992 in *.
  lia.
Qed.

Lemma hoare_uniform (t : bool) (a b : Q) :
  (a <= b)%Q -> hoare t (uniform a b) (fun x => a <= x <= b)%Q.
Proof.
  intros Hab. unfold uniform.
  eapply hoare_bind; [apply hoare_random |].
  intros u Hu. cbv beta in Hu. destruct Hu as [Hu0 Hu1].
  apply hoare_ret. split; nra.
Qed.

Lemma hoare_choice (t : bool) (seq : list string) :
  (t = true -> seq <> []) -> hoare t (choice seq) (fun x => In x seq).
Proof.
  intros Hne. unfold choice.
  eapply hoare_bind.
  - apply hoare_randbelow. intros Ht. specialize (Hne Ht).
    destruct seq; [congruence | cbn; lia].
  - intros i Hi. cbv beta in Hi.
    destruct (nth_error seq (Z.to_nat i)) as [x |] eqn:E.
    + apply hoare_ret. eapply nth_error_In, E.
    + exfalso. apply nth_error_None in E. lia.
Qed.

(** ** Arithmetic of the generator *)

Lemma py_int_floor (x : Q) : (0 <= x)%Q -> py_int x = Qfloor x.
Proof.
  destruct x as [n d]. unfold Qle, py_int. cbn. intros Hn.
  apply Z.quot_div_nonneg; lia.
Qed.

(** [int(tasks_total * (actual_completion / 100))] never exceeds
    [tasks_total]. *)
Lemma tasks_completed_le (tasks_total actual_completion : Z) :
  0 <= tasks_total -> 0 <= actual_completion <= 100 ->
  py_int (inject_Z tasks_total * (inject_Z actual_completion / 100))
  <= tasks_total.
Proof.
  intros Ht [Ha0 Ha1].
  rewrite Zle_Qle in Ht, Ha0, Ha1.
  change (inject_Z 0) with 0%Q in *. change (inject_Z 100) with 100%Q in *.
  set (tt := inject_Z tasks_total) in *.
  set (ac := inject_Z actual_completion) in *.
  assert (0 <= ac / 100 <= 1)%Q as [Hf0 Hf1].
  { unfold Qdiv. change (/ 100)%Q with (1 # 100)%Q. lra. }
  assert (0 <= tt * (ac / 100) <= tt)%Q as [Hx0 Hx1] by nra.
  rewrite py_int_floor by exact Hx0.
  rewrite <- (Qfloor_Z tasks_total). now apply Qfloor_resp_le.
Qed.

Lemma round_half_even_ge (y : Q) (n : Z) :
  (inject_Z n <= y)%Q -> n <= round_half_even y.
Proof.
  intros Hy. unfold round_half_even.
  assert (n <= Qfloor y).
  { rewrite <- (Qfloor_Z n). now apply Qfloor_resp_le. }
  destruct (_ ?= _)%Q; [destruct (Z.even _) | |]; lia.
Qed.

(** Rounding a cost of at least 0.85 to cents leaves it positive. *)
Lemma actual_cost_pos (planned_cost : Z) (cost_variance : Q) :
  0 < planned_cost -> (- (15 # 100) <= cost_variance)%Q ->
  (0 < py_round2 (inject_Z planned_cost * (1 + cost_variance)))%Q.
Proof.
  intros Hp Hv. unfold py_round2. rewrite Qred_correct.
  assert (1 <= inject_Z planned_cost)%Q as Hp1.
  { change 1%Q with (inject_Z 1). rewrite <- Zle_Qle. lia. }
  assert (85 <= round_half_even
                  (inject_Z planned_cost * (1 + cost_variance) * 100)).
  { apply round_half_even_ge. change (inject_Z 85) with 85%Q. nra. }
  set (k := round_half_even _) in *.
  assert (85 <= inject_Z k)%Q.
  { change 85%Q with (inject_Z 85). now rewrite <- Zle_Qle. }
  unfold Qdiv. change (/ 100)%Q with (1 # 100)%Q. lra.
Qed.

Lemma hoare_uniform_any (t : bool) (a b : Q) :
  hoare t (uniform a b) (fun _ => True).
Proof.
  unfold uniform. eapply hoare_bind; [apply hoare_random |].
  intros u _. now apply hoare_ret.
Qed.

Lemma hoare_roll_status (t : bool) (tasks_total : Z) :
  0 <= tasks_total ->
  hoare t (roll_status tasks_total)
    (fun '(_, planned_completion, actual_completion, tasks_completed) =>
       planned_completion = 100
       /\ 0 <= actual_completion <= 100
       /\ tasks_completed <= tasks_total).
Proof.
  intros Ht. unfold roll_status.
  eapply hoare_bind; [apply hoare_random |]. intros roll _.
  repeat match goal with
         | |- hoare _ (if ?c then _ else _) _ => destruct c
         end;
    try (apply hoare_ret; lia);
    (eapply hoare_bind; [apply hoare_randint; lia |]);
    intros ac Hac; cbv beta in Hac; apply hoare_ret;
    (split; [reflexivity | split; [lia |]]);
    apply tasks_completed_le; lia.
Qed.

Lemma hoare_draw_hours_variance (t : bool) (status : string)
    (actual_completion : Z) :
  hoare t (draw_hours_variance status actual_completion) (fun _ => True).
Proof.
  unfold draw_hours_variance.
  repeat match goal with
         | |- hoare _ (if ?c then _ else _) _ => destruct c
         end; apply hoare_uniform_any.
Qed.

(** What holds of every generated record, and, for a usable
    configuration, that a record is generated at all. *)
Lemma generate_realistic_project_spec (t : bool) (dept_name : string)
    (project_id : Z) (project_name : string) (config : DeptConfig) :
  (t = true -> config_ok config) ->
  hoare t
    (generate_realistic_project dept_name project_id project_name config)
    (fun p =>
       Planned_Completion p = 100
       /\ 0 <= Actual_Completion p <= 100
       /\ Tasks_Completed p <= Tasks_Total p
       /\ (config_ok config ->
           Start_Date p < End_Date p /\ (0 < Actual_Cost p)%Q)).
Proof.
  intros Hok. unfold generate_realistic_project.
  eapply hoare_bind;
    [apply hoare_choice; intros Ht; apply (Hok Ht) |]. intros manager _.
  eapply hoare_bind; [apply hoare_randint; lia |]. intros month _.
  eapply hoare_bind; [apply hoare_randint; lia |]. intros day _.
  eapply hoare_bind;
    [apply hoare_randint; intros Ht; destruct (Hok Ht) as (_ & _ & ?); lia |].
  intros duration_days Hd. cbv beta in Hd.
  eapply hoare_bind;
    [apply hoare_randint; intros Ht; destruct (Hok Ht) as (_ & ? & _); lia |].
  intros planned_cost Hp. cbv beta in Hp.
  eapply hoare_bind; [apply hoare_uniform; lra |].
  intros cost_variance Hv. cbv beta in Hv.
  eapply hoare_bind; [apply hoare_randint; lia |].
  intros tasks_total Htt. cbv beta in Htt.
  eapply hoare_bind; [apply hoare_roll_status; lia |].
  intros [[[status planned_completion] actual_completion] tasks_completed].
  intros (Hpc & Hac & Htc).
  eapply hoare_bind; [apply hoare_randint; lia |]. intros planned_hours _.
  eapply hoare_bind; [apply hoare_draw_hours_variance |].
  intros hours_variance _.
  apply hoare_ret. cbn.
  repeat split; try lia.
  - destruct H as (_ & _ & ?). lia.
  - destruct H as (_ & ? & _). apply actual_cost_pos; [lia | tauto].
Qed.

Lemma DEPT_CONFIG_ok (dept_name : string) (config : DeptConfig) :
  DEPT_CONFIG !! dept_name = Some config -> config_ok config.
Proof.
  unfold DEPT_CONFIG. intros H. apply elem_of_list_to_map_2 in H.
  repeat (apply elem_of_cons in H; destruct H as [[= _ ->] | H]);
    try (unfold config_ok; cbn; repeat split; (discriminate || lia)).
  now apply elem_of_nil in H.
Qed.

End Generator.

(** C9.  On a configuration with a non-empty roster and non-empty
    ranges of positive costs and durations (such as the three of
    [DEPT_CONFIG]), [generate_realistic_project] returns a record on
    every tape of random draws, and the record has
    [Tasks_Completed <= Tasks_Total], both completion percentages in
    [0,100], [End_Date > Start_Date] and [Actual_Cost > 0]. *)
Theorem generate_realistic_project_postcondition (dept_name : string)
    (project_id : Z) (project_name : string) (config : DeptConfig)
    (s : tape) :
  config_ok config ->
  exists p s',
    generate_realistic_project dept_name project_id project_name config s
    = Some (p, s')
    /\ Tasks_Completed p <= Tasks_Total p
    /\ 0 <= Planned_Completion p <= 100
    /\ 0 <= Actual_Completion p <= 100
    /\ Start_Date p < End_Date p
    /\ (0 < Actual_Cost p)%Q.
Proof.
  intros Hok.
  pose proof (generate_realistic_project_spec true dept_name project_id
                project_name config (fun _ => Hok) s) as H.
  destruct (generate_realistic_project _ _ _ _ s) as [[p s'] |];
    [| discriminate].
  destruct H as (Hpc & Hac & Htc & Hrest).
  destruct (Hrest Hok) as [Hdate Hcost].
  exists p, s'. repeat split; try assumption; lia.
Qed.

Lemma generate_realistic_project_postcondition_witness :
  exists p s',
    generate_realistic_project "Marketing" 1001 "Website Redesign"
      marketing_config example_tape = Some (p, s')
    /\ Start_Date p < End_Date p.
Proof.
  destruct (generate_realistic_project_postcondition "Marketing" 1001
              "Website Redesign" marketing_config example_tape)
    as (p & s' & Hrun & _ & _ & _ & Hdate & _).
  - unfold config_ok. cbn. repeat split; (discriminate || lia).
  - exists p, s'. split; assumption.
Defined.

(** C10.  Every record [generate_realistic_project] returns has
    [Planned_Completion = 100], whichever status bucket was drawn; hence
    the transform step's [On_Time] flag
    ([Actual_Completion >= Planned_Completion]) is set exactly when
    [Actual_Completion = 100]. *)
Theorem generated_planned_completion (dept_name : string)
    (project_id : Z) (project_name : string) (config : DeptConfig)
    (s s' : tape) (p : Project) :
  generate_realistic_project dept_name project_id project_name config s
  = Some (p, s') ->
  Planned_Completion p = 100
  /\ (On_Time (transform_data p) = true <-> Actual_Completion p = 100).
Proof.
  intros Hrun.
  pose proof (generate_realistic_project_spec false dept_name project_id
                project_name config (fun H => False_ind _ (diff_false_true H))
                s) as H.
  rewrite Hrun in H. destruct H as (Hpc & Hac & _).
  split; [exact Hpc |].
  cbn [On_Time transform_data]. rewrite Hpc, Z.leb_le. lia.
Qed.

Lemma generated_planned_completion_witness :
  exists p,
    option_map fst
      (generate_realistic_project "Marketing" 1001 "Website Redesign"
         marketing_config example_tape) = Some p
    /\ Planned_Completion p = 100.
Proof.
  destruct (generate_realistic_project "Marketing" 1001 "Website Redesign"
              marketing_config example_tape) as [[p s'] |] eqn:Hrun;
    [| vm_compute in Hrun; discriminate].
  exists p. split; [reflexivity |].
  exact (proj1 (generated_planned_completion _ _ _ _ _ _ _ Hrun)).
Defined.

(** ** The validator *)

Section Validator.

Section Keeps.

Variable Inv : report -> Prop.
Hypothesis Inv_fail :
  forall st found, found <> [] -> Inv st -> Inv (fail_with found st).2.
Hypothesis Inv_warn : forall st w, Inv st -> Inv (warn w st).2.

Lemma keeps_pass {A : Type} (a : A) : keeps Inv (pass a).
Proof. intros st H. exact H. Qed.

Lemma keeps_throw {A : Type} (e : string) : keeps Inv (@throw A e).
Proof. intros st H. exact H. Qed.

Lemma keeps_and_then {A B : Type} (m : Validation A) (k : A -> Validation B) :
  keeps Inv m -> (forall a, keeps Inv (k a)) -> keeps Inv (and_then m k).
Proof.
  intros Hm Hk st H. unfold and_then. specialize (Hm st H).
  destruct (m st) as [[a | e] st']; cbn in *; [now apply Hk | exact Hm].
Qed.

Lemma keeps_series {A : Type} (df : DataFrame) (c : string)
    (cell : CsvRow -> option A) :
  keeps Inv (series df c cell).
Proof.
  unfold series. destruct (bool_decide _); [apply keeps_pass | apply keeps_throw].
Qed.

Lemma keeps_fail_with (found : list issue) :
  found <> [] -> keeps Inv (fail_with found).
Proof. intros Hne st H. now apply Inv_fail. Qed.

Lemma keeps_warn (w : warning) : keeps Inv (warn w).
Proof. intros st H. now apply Inv_warn. Qed.

(** One rule per shape of statement the checks are made of. *)
Ltac keeps_step :=
  match goal with
  | |- keeps _ (and_then _ _) => apply keeps_and_then; [| intros ?]
  | |- keeps _ (series _ _ _) => apply keeps_series
  | |- keeps _ (pass _) => apply keeps_pass
  | |- keeps _ (warn _) => apply keeps_warn
  | |- keeps _ (fail_with [_]) => apply keeps_fail_with; discriminate
  | |- keeps _ (if ?c then _ else _) => destruct c eqn:?
  | |- keeps _ (let x := _ in _) => cbv zeta
  end.

Lemma keeps_check_schema (name : string) (df : DataFrame) :
  keeps Inv (check_schema name df).
Proof.
  unfold check_schema. cbv zeta.
  destruct (nonempty (list_difference expected_columns (columns df)));
    destruct (nonempty (list_difference (columns df) expected_columns));
    cbn [orb]; try apply keeps_pass;
    apply keeps_fail_with; discriminate.
Qed.

Lemma keeps_check_project_ids (all_data : DataFrame) :
  keeps Inv (check_project_ids all_data).
Proof. unfold check_project_ids. repeat keeps_step. Qed.

Lemma keeps_check_id_ranges (m o i : DataFrame) :
  keeps Inv (check_id_ranges m o i).
Proof. unfold check_id_ranges. repeat keeps_step. Qed.

Lemma sum_list_positive (l : list (string * nat)) :
  (0 < sum_list (map snd l))%nat ->
  List.filter (fun kv : string * nat => (0 <? kv.2)%nat) l <> [].
Proof.
  induction l as [| [c n] l IH]; cbn; [lia |].
  destruct n as [| n]; cbn; [exact IH | discriminate].
Qed.

Lemma keeps_check_missing_values (all_data : DataFrame) :
  keeps Inv (check_missing_values all_data).
Proof.
  unfold check_missing_values. cbv zeta.
  match goal with |- keeps _ (if ?c then _ else _) => destruct c eqn:E end;
    [| apply keeps_pass].
  apply keeps_fail_with. apply Nat.ltb_lt, sum_list_positive in E.
  intros Hnil. apply map_eq_nil in Hnil. contradiction.
Qed.

Lemma keeps_check_dates (to_datetime : string -> option Z)
    (all_data : DataFrame) :
  keeps Inv (check_dates to_datetime all_data).
Proof. unfold check_dates. repeat keeps_step. Qed.

Lemma keeps_check_costs (all_data : DataFrame) :
  keeps Inv (check_costs all_data).
Proof. unfold check_costs. repeat keeps_step. Qed.

Lemma keeps_check_completion (all_data : DataFrame) :
  keeps Inv (check_completion all_data).
Proof. unfold check_completion. repeat keeps_step. Qed.

Lemma keeps_check_tasks (all_data : DataFrame) :
  keeps Inv (check_tasks all_data).
Proof. unfold check_tasks. repeat keeps_step. Qed.

Lemma keeps_check_status (all_data : DataFrame) :
  keeps Inv (check_status all_data).
Proof. unfold check_status. repeat keeps_step. Qed.

Lemma keeps_check_hours (all_data : DataFrame) :
  keeps Inv (check_hours all_data).
Proof. unfold check_hours. repeat keeps_step. Qed.

Lemma keeps_check_department (dept : string) (df : DataFrame)
    (range : Q * Q) :
  keeps Inv (check_department dept df range).
Proof. unfold check_department. repeat keeps_step. Qed.

Lemma keeps_return_validation_passed : keeps Inv return_validation_passed.
Proof. intros st H. exact H. Qed.

Lemma keeps_checks_after_schema (to_datetime : string -> option Z)
    (m o i : DataFrame) :
  keeps Inv (checks_after_schema to_datetime m o i).
Proof.
  unfold checks_after_schema. cbv zeta.
  repeat first
    [ apply keeps_check_project_ids | apply keeps_check_id_ranges
    | apply keeps_check_missing_values | apply keeps_check_dates
    | apply keeps_check_costs | apply keeps_check_completion
    | apply keeps_check_tasks | apply keeps_check_status
    | apply keeps_check_hours | apply keeps_check_department
    | apply keeps_return_validation_passed
    | apply keeps_and_then; [| intros _] ].
Qed.

End Keeps.

Lemma consistent_fail (st : report) (found : list issue) :
  found <> [] -> consistent st -> consistent (fail_with found st).2.
Proof.
  intros Hne _. unfold consistent. cbn. split; [discriminate |].
  intros H. apply app_eq_nil in H as [_ H]. contradiction.
Qed.

Lemma consistent_warn (st : report) (w : warning) :
  consistent st -> consistent (warn w st).2.
Proof. intros H. exact H. Qed.




Lemma nonempty_false {A : Type} (l : list A) : nonempty l = false -> l = [].
Proof. destruct l; [reflexivity | discriminate]. Qed.



Lemma complete_pd_concat (m o i : DataFrame) :
  complete m -> complete (pd_concat [m; o; i]).
Proof.
  intros Hm c Hc. cbn [pd_concat columns flat_map].
  rewrite elem_of_drop_duplicates, elem_of_app. left. now apply Hm.
Qed.

(** ** No exception on complete frames *)









(** The value returned is the flag. *)
Lemma and_then_done {A B : Type} (m : Validation A) (k : A -> Validation B)
    (st st' : report) (b : B) :
  and_then m k st = (Done b, st') ->
  exists a st1, m st = (Done a, st1) /\ k a st1 = (Done b, st').
Proof.
  unfold and_then. destruct (m st) as [[a | e] st1]; [| discriminate].
  intros H. now exists a, st1.
Qed.

Lemma validate_frames_returns_flag (to_datetime : string -> option Z)
    (m o i : DataFrame) (st st' : report) (b : bool) :
  validate_frames to_datetime m o i st = (Done b, st') ->
  b = validation_passed st'.
Proof.
  unfold validate_frames, checks_after_schema. cbv zeta.
  intros H.
  repeat (apply and_then_done in H; destruct H as (? & ? & _ & H)).
  unfold return_validation_passed in H. now injection H as <- <-.
Qed.

Lemma validate_frames_consistent (to_datetime : string -> option Z)
    (m o i : DataFrame) (st : report) :
  consistent st -> consistent (validate_frames to_datetime m o i st).2.
Proof.
  unfold validate_frames. revert st.
  change (keeps consistent
            (and_then (check_schema "Marketing" m) (fun _ =>
             and_then (check_schema "Operations" o) (fun _ =>
             and_then (check_schema "IT" i) (fun _ =>
             checks_after_schema to_datetime m o i))))).
  repeat first
    [ apply keeps_check_schema
    | apply keeps_checks_after_schema
    | apply consistent_fail | apply consistent_warn
    | apply keeps_and_then; [| intros _] ].
Qed.


End Validator.


(** Both kinds of warning at once, and the validation passes. *)
Example validate_datasets_passes_with_warnings :
  validate_datasets iso_to_datetime inputs_with_warnings
  = (Done true, [],
     [ExtremeCostVariance 1; OutsideExpectedCostRange "Marketing" 1]).
Proof. vm_compute. reflexivity. Qed.

(** A missing file ends the run before any check: [False] is returned
    and nothing has been recorded. *)
Lemma validate_datasets_missing_file (to_datetime : string -> option Z)
    (files : CsvInputs) :
  marketing_csv files = None \/ operations_csv files = None
  \/ it_csv files = None ->
  validate_datasets to_datetime files = (Done false, [], []).
Proof.
  unfold validate_datasets.
  intros [H | [H | H]]; rewrite H;
    repeat match goal with
           | |- context [match ?x with Some _ => _ | None => _ end] =>
               destruct x
           end; reflexivity.
Qed.

(** The entry point exits with status 0 whenever [validate_datasets]
    returns, whatever it returns. *)
Lemma validate_data_main_returns (to_datetime : string -> option Z)
    (files : CsvInputs) (b : bool) :
  result_of (validate_datasets to_datetime files) = Done b ->
  validate_data_main to_datetime files = 0.
Proof.
  unfold validate_data_main, result_of.
  destruct (validate_datasets to_datetime files) as [[out iss] ws].
  cbn. now intros ->.
Qed.

(** C3 (the code departs from it).  With [marketing_projects.csv]
    absent [validate_datasets] returns [False], and so it does when a
    project has more completed tasks than tasks; in both runs the entry
    point exits with status 0. *)
Theorem validate_data_main_exit_status :
  result_of (validate_datasets iso_to_datetime inputs_without_marketing)
  = Done false
  /\ validate_data_main iso_to_datetime inputs_without_marketing = 0
  /\ validate_datasets iso_to_datetime inputs_with_invalid_tasks
     = (Done false, [InvalidTaskCounts 1], [])
  /\ validate_data_main iso_to_datetime inputs_with_invalid_tasks = 0.
Proof. repeat split; vm_compute; reflexivity. Qed.

(* ===================================================================== *)
(** * Part II, continued.  Further properties of the scripts              *)
(* ===================================================================== *)

(** ** The generated record *)

Section GeneratedRecord.

Lemma round_half_even_le (y : Q) (n : Z) :
  (y <= inject_Z n)%Q -> round_half_even y <= n.
Proof.
  intros Hy. unfold round_half_even.
  pose proof (Qfloor_bounds y) as [Hlo Hhi].
  assert (Qfloor y <= n) as Hf.
  { rewrite <- (Qfloor_Z n). now apply Qfloor_resp_le. }
  destruct (Z.eq_dec (Qfloor y) n) as [Heq | Hne].
  - rewrite Heq in *.
    destruct (Qcompare_spec (y - inject_Z n) (1 # 2)) as [H | H | H];
      [lra | lia | lra].
  - destruct (_ ?= _)%Q; [destruct (Z.even _) | |]; lia.
Qed.

(** Rounding to cents keeps a value between two bounds that are whole
    cents themselves. *)
Lemma py_round2_between (x : Q) (lo hi : Z) :
  (inject_Z lo <= x * 100 <= inject_Z hi)%Q ->
  (inject_Z lo / 100 <= py_round2 x <= inject_Z hi / 100)%Q.
Proof.
  intros [Hlo Hhi]. unfold py_round2. rewrite Qred_correct.
  pose proof (round_half_even_ge _ _ Hlo) as H1.
  pose proof (round_half_even_le _ _ Hhi) as H2.
  rewrite Zle_Qle in H1, H2.
  unfold Qdiv. change (/ 100)%Q with (1 # 100)%Q. lra.
Qed.

Lemma actual_cost_spread (planned_cost : Z) (cost_variance : Q) :
  0 <= planned_cost ->
  (- (15 # 100) <= cost_variance <= 20 # 100)%Q ->
  ((85 # 100) * inject_Z planned_cost
   <= py_round2 (inject_Z planned_cost * (1 + cost_variance))
   <= (120 # 100) * inject_Z planned_cost)%Q.
Proof.
  intros Hp [Hv0 Hv1].
  rewrite Zle_Qle in Hp. change (inject_Z 0) with 0%Q in Hp.
  destruct (py_round2_between
              (inject_Z planned_cost * (1 + cost_variance))
              (85 * planned_cost) (120 * planned_cost)) as [Hlo Hhi].
  - rewrite !inject_Z_mult.
    change (inject_Z 85) with 85%Q. change (inject_Z 120) with 120%Q.
    split; nra.
  - rewrite !inject_Z_mult in Hlo, Hhi.
    change (inject_Z 85) with 85%Q in Hlo.
    change (inject_Z 120) with 120%Q in Hhi.
    unfold Qdiv in Hlo, Hhi. change (/ 100)%Q with (1 # 100)%Q in Hlo, Hhi.
    split; lra.
Qed.

(** [int(planned_hours * (1 + hours_variance))] between rational
    bounds. *)
Lemma actual_hours_bounds (planned_hours : Z) (hours_variance lo hi : Q) :
  0 <= planned_hours ->
  (-1 <= lo)%Q -> (lo <= hours_variance <= hi)%Q ->
  let actual_hours :=
    py_int (inject_Z planned_hours * (1 + hours_variance)) in
  (inject_Z planned_hours * (1 + lo) - 1 < inject_Z actual_hours)%Q
  /\ (inject_Z actual_hours <= inject_Z planned_hours * (1 + hi))%Q
  /\ ((0 <= lo)%Q -> planned_hours <= actual_hours).
Proof.
  intros Hp Hlo1 [Hlo Hhi]. cbv zeta.
  rewrite Zle_Qle in Hp. change (inject_Z 0) with 0%Q in Hp.
  set (x := (inject_Z planned_hours * (1 + hours_variance))%Q).
  assert (0 <= x)%Q as Hx0 by (unfold x; nra).
  rewrite (py_int_floor x Hx0).
  pose proof (Qfloor_bounds x) as [Hf0 Hf1].
  assert (inject_Z planned_hours * (1 + lo) <= x)%Q by (unfold x; nra).
  assert (x <= inject_Z planned_hours * (1 + hi))%Q by (unfold x; nra).
  split; [lra | split; [lra |]].
  intros Hlo0. rewrite <- (Qfloor_Z planned_hours).
  apply Qfloor_resp_le. nra.
Qed.

Lemma hoare_conj {A : Type} (t : bool) (m : Rand A) (P Q : A -> Prop) :
  hoare t m P -> hoare false m Q -> hoare t m (fun a => P a /\ Q a).
Proof.
  intros HP HQ s. specialize (HP s). specialize (HQ s).
  destruct (m s) as [[a s'] |]; [now split | exact HP].
Qed.

(** The status roll, bucket by bucket. *)
Lemma hoare_roll_status_buckets (t : bool) (tasks_total : Z) :
  hoare t (roll_status tasks_total)
    (fun '(status, planned_completion, actual_completion, tasks_completed) =>
       planned_completion = 100
       /\ ((status = "Completed" /\ actual_completion = 100
            /\ tasks_completed = tasks_total)
           \/ (status = "In Progress" /\ 50 <= actual_completion <= 95)
           \/ (status = "Delayed" /\ 70 <= actual_completion <= 90)
           \/ (status = "Not Started" /\ actual_completion = 0
               /\ tasks_completed = 0)
           \/ (status = "On Hold" /\ 20 <= actual_completion <= 60))
       /\ tasks_completed
          = py_int (inject_Z tasks_total
                    * (inject_Z actual_completion / 100))).
Proof.
  unfold roll_status.
  eapply hoare_bind; [apply hoare_random |]. intros roll _.
  assert (forall z : Z, py_int (inject_Z z * (inject_Z 100 / 100)) = z)
    as Hfull.
  { intros z. unfold py_int. cbn. rewrite Z.mul_1_r.
    replace (z * 100 * 1) with (z * 100) by ring.
    apply Z.quot_mul. discriminate. }
  assert (forall z : Z, py_int (inject_Z z * (inject_Z 0 / 100)) = 0)
    as Hnone.
  { intros z. unfold py_int. cbn. rewrite Z.mul_0_r. reflexivity. }
  repeat match goal with
         | |- hoare _ (if ?c then _ else _) _ => destruct c
         end.
  - apply hoare_ret. rewrite Hfull. tauto.
  - eapply hoare_bind; [apply hoare_randint; lia |].
    intros ac Hac. cbv beta in Hac. apply hoare_ret. tauto.
  - eapply hoare_bind; [apply hoare_randint; lia |].
    intros ac Hac. cbv beta in Hac. apply hoare_ret. tauto.
  - apply hoare_ret. rewrite Hnone. tauto.
  - eapply hoare_bind; [apply hoare_randint; lia |].
    intros ac Hac. cbv beta in Hac. apply hoare_ret. tauto.
Qed.

(** The hours variance by status. *)
Lemma hoare_draw_hours_variance_bounds (t : bool) (status : string)
    (actual_completion : Z) :
  0 <= actual_completion ->
  hoare t (draw_hours_variance status actual_completion)
    (fun hv =>
       (status = "Completed" -> - (10 # 100) <= hv <= 25 # 100)
       /\ (status = "In Progress" ->
           0 <= hv <= inject_Z actual_completion / 100)
       /\ (status <> "Completed" -> status <> "In Progress" ->
           0 <= hv <= 5 # 10))%Q.
Proof.
  intros Hac. unfold draw_hours_variance.
  destruct (String.eqb_spec status "Completed") as [-> | Hc].
  - eapply hoare_weaken; [apply hoare_uniform; lra |].
    intros hv Hhv. cbv beta in Hhv.
    repeat split; try tauto; try discriminate; congruence.
  - destruct (String.eqb_spec status "In Progress") as [-> | Hp].
    + eapply hoare_weaken; [apply hoare_uniform |].
      * rewrite Zle_Qle in Hac. change (inject_Z 0) with 0%Q in Hac.
        unfold Qdiv. change (/ 100)%Q with (1 # 100)%Q. lra.
      * intros hv Hhv. cbv beta in Hhv.
        repeat split; try tauto; congruence.
    + eapply hoare_weaken; [apply hoare_uniform; lra |].
      intros hv Hhv. cbv beta in Hhv.
      repeat split; try tauto; congruence.
Qed.

(** From the bounds on the variance to the integer bounds on the
    hours. *)
Lemma hours_spread (status : string) (planned_hours actual_completion : Z)
    (hv : Q) :
  0 <= planned_hours -> 0 <= actual_completion ->
  ((status = "Completed" -> - (10 # 100) <= hv <= 25 # 100)
   /\ (status = "In Progress" ->
       0 <= hv <= inject_Z actual_completion / 100)
   /\ (status <> "Completed" -> status <> "In Progress" ->
       0 <= hv <= 5 # 10))%Q ->
  let actual_hours := py_int (inject_Z planned_hours * (1 + hv)) in
  (status = "Completed" ->
   9 * planned_hours - 10 < 10 * actual_hours
   /\ 4 * actual_hours <= 5 * planned_hours)
  /\ (status = "In Progress" ->
      planned_hours <= actual_hours
      /\ 100 * actual_hours <= planned_hours * (100 + actual_completion))
  /\ (status <> "Completed" -> status <> "In Progress" ->
      planned_hours <= actual_hours
      /\ 2 * actual_hours <= 3 * planned_hours).
Proof.
  intros Hp Hac (Hc & Hi & Ho). cbv zeta.
  set (ah := py_int (inject_Z planned_hours * (1 + hv))).
  pose proof Hp as HpQ. rewrite Zle_Qle in HpQ.
  pose proof Hac as HacQ. rewrite Zle_Qle in HacQ.
  change (inject_Z 0) with 0%Q in HpQ, HacQ.
  split; [| split].
  - intros E. specialize (Hc E).
    destruct (actual_hours_bounds planned_hours hv (- (10 # 100)) (25 # 100)
                Hp ltac:(lra) Hc) as (Hlo & Hhi & _).
    fold ah in Hlo, Hhi. split.
    + rewrite Zlt_Qlt. unfold Z.sub.
      rewrite inject_Z_plus, !inject_Z_mult, inject_Z_opp.
      change (inject_Z 9) with 9%Q. change (inject_Z 10) with 10%Q. lra.
    + rewrite Zle_Qle, !inject_Z_mult.
      change (inject_Z 4) with 4%Q. change (inject_Z 5) with 5%Q. lra.
  - intros E. specialize (Hi E).
    destruct (actual_hours_bounds planned_hours hv 0
                (inject_Z actual_completion / 100)
                Hp ltac:(lra) Hi) as (_ & Hhi & Hge).
    fold ah in Hhi, Hge. split; [apply Hge; lra |].
    rewrite Zle_Qle, !inject_Z_mult, inject_Z_plus.
    change (inject_Z 100) with 100%Q.
    unfold Qdiv in Hhi. change (/ 100)%Q with (1 # 100)%Q in Hhi. lra.
  - intros E1 E2. specialize (Ho E1 E2).
    destruct (actual_hours_bounds planned_hours hv 0 (5 # 10)
                Hp ltac:(lra) Ho) as (_ & Hhi & Hge).
    fold ah in Hhi, Hge. split; [apply Hge; lra |].
    rewrite Zle_Qle, !inject_Z_mult.
    change (inject_Z 2) with 2%Q. change (inject_Z 3) with 3%Q. lra.
Qed.

(** Everything the body of [generate_realistic_project] fixes about the
    record it returns. *)
Lemma generate_realistic_project_record (t : bool) (dept_name : string)
    (project_id : Z) (project_name : string) (config : DeptConfig) :
  (t = true -> config_ok config) ->
  hoare t
    (generate_realistic_project dept_name project_id project_name config)
    (fun p =>
       bucket_ok p
       /\ drawn_from dept_name project_id project_name config p
       /\ hours_spread_ok p
       /\ (0 <= fst (cost_range config) -> cost_spread_ok p)).
Proof.
  intros Hok. unfold generate_realistic_project.
  eapply hoare_bind;
    [apply hoare_choice; intros Ht; apply (Hok Ht) |].
  intros manager Hm. cbv beta in Hm.
  eapply hoare_bind; [apply hoare_randint; lia |].
  intros month Hmo. cbv beta in Hmo.
  eapply hoare_bind; [apply hoare_randint; lia |].
  intros day Hday. cbv beta in Hday.
  eapply hoare_bind;
    [apply hoare_randint; intros Ht; destruct (Hok Ht) as (_ & _ & ?); lia |].
  intros duration_days Hd. cbv beta in Hd.
  eapply hoare_bind;
    [apply hoare_randint; intros Ht; destruct (Hok Ht) as (_ & ? & _); lia |].
  intros planned_cost Hp. cbv beta in Hp.
  eapply hoare_bind; [apply hoare_uniform; lra |].
  intros cost_variance Hv. cbv beta in Hv.
  eapply hoare_bind; [apply hoare_randint; lia |].
  intros tasks_total Htt. cbv beta in Htt.
  eapply hoare_bind; [apply hoare_roll_status_buckets |].
  intros [[[status planned_completion] actual_completion] tasks_completed].
  intros (Hpc & Hbucket & Htc).
  assert (0 <= actual_completion) as Hac0
    by (decompose [and or] Hbucket; lia).
  eapply hoare_bind; [apply hoare_randint; lia |].
  intros planned_hours Hph. cbv beta in Hph.
  eapply hoare_bind; [apply hoare_draw_hours_variance_bounds; exact Hac0 |].
  intros hours_variance Hhv. cbv beta in Hhv.
  apply hoare_ret.
  split; [| split; [| split]].
  - unfold bucket_ok. cbn. tauto.
  - unfold drawn_from. cbn. repeat split; try lia; try assumption.
    + assert (month = 7 \/ month = 8 \/ month = 9 \/ month = 10
              \/ month = 11 \/ month = 12) as Hcases by lia.
      unfold ymd2ord.
      decompose [or] Hcases; subst month; vm_compute days_before_month;
        vm_compute days_before_year; lia.
    + assert (month = 7 \/ month = 8 \/ month = 9 \/ month = 10
              \/ month = 11 \/ month = 12) as Hcases by lia.
      unfold ymd2ord.
      decompose [or] Hcases; subst month; vm_compute days_before_month;
        vm_compute days_before_year; lia.
    + exists planned_cost. split; [reflexivity | lia].
  - unfold hours_spread_ok. cbn.
    apply (hours_spread status planned_hours actual_completion
             hours_variance); [lia | exact Hac0 | exact Hhv].
  - intros Hlo. unfold cost_spread_ok. cbn.
    apply actual_cost_spread; [lia | exact Hv].
Qed.

End GeneratedRecord.

(** ** The generated dataset *)

Section GeneratedDataset.

Lemma insert_Permutation {A : Type} (l : list A) (i : nat) (x y : A) :
  l !! i = Some x -> x :: <[i:=y]> l ≡ₚ y :: l.
Proof.
  revert i. induction l as [| a l IH]; intros [| i] H; try discriminate.
  - injection H as ->. cbn. apply perm_swap.
  - cbn in *. rewrite perm_swap, (IH i H). apply perm_swap.
Qed.

(** One draw from the pool: the item drawn and the pool that is left
    make up the pool there was. *)
Lemma pool_step (pool : list string) (j : nat) (x y : string) :
  pool !! j = Some x -> last pool = Some y ->
  pool ≡ₚ x :: take (length pool - 1) (<[j:=y]> pool).
Proof.
  intros Hx Hy. apply last_Some in Hy as [init ->].
  rewrite length_app. cbn [length].
  replace (length init + 1 - 1)%nat with (length init) by lia.
  destruct (decide (j < length init)%nat) as [Hlt | Hge].
  - rewrite lookup_app_l in Hx by exact Hlt.
    rewrite insert_app_l by exact Hlt.
    rewrite take_app_length' by now rewrite length_insert.
    rewrite (insert_Permutation init j x y Hx).
    rewrite <- Permutation_cons_append. reflexivity.
  - apply lookup_lt_Some in Hx as Hj. rewrite length_app in Hj. cbn in Hj.
    assert (j = length init) as -> by lia.
    rewrite list_insert_id.
    + rewrite take_app_length.
      rewrite lookup_app_r, Nat.sub_diag in Hx by lia.
      injection Hx as <-. now rewrite <- Permutation_cons_append.
    + rewrite lookup_app_r, Nat.sub_diag by lia. reflexivity.
Qed.

(** [sample_pool] returns [k] items which, with the items left in the
    pool, make up the pool; it raises only when the pool runs out. *)
Lemma hoare_sample_pool (t : bool) (k : nat) (pool : list string) :
  (t = true -> (k <= length pool)%nat) ->
  hoare t (sample_pool pool k)
    (fun l => length l = k /\ exists rest, pool ≡ₚ l ++ rest).
Proof.
  revert pool. induction k as [| k IH]; intros pool Hk; cbn [sample_pool].
  - apply hoare_ret. split; [reflexivity | now exists pool].
  - eapply hoare_bind; [apply hoare_randbelow; intros Ht; specialize (Hk Ht); lia |].
    intros j Hj. cbv beta in Hj.
    destruct (pool !! Z.to_nat j) as [x |] eqn:Ex;
      [| apply lookup_ge_None in Ex; lia].
    destruct (last pool) as [y |] eqn:Ey.
    2:{ apply last_None in Ey. subst pool. cbn in Hj. lia. }
    pose proof (pool_step pool (Z.to_nat j) x y Ex Ey) as Hperm.
    eapply hoare_bind.
    + apply IH. intros Ht. specialize (Hk Ht).
      rewrite length_take, length_insert. lia.
    + intros rest (Hlen & others & Hrest). apply hoare_ret. split.
      * cbn. now rewrite Hlen.
      * exists others. cbn. now rewrite Hperm, Hrest.
Qed.

Lemma hoare_sample (t : bool) (population : list string) (k : Z) :
  (t = true -> 0 <= k <= Z.of_nat (length population)) ->
  hoare t (sample population k)
    (fun l => Z.of_nat (length l) = k
              /\ exists rest, population ≡ₚ l ++ rest).
Proof.
  intros Hk. unfold sample.
  destruct (Z.leb_spec 0 k) as [H0 | H0];
    destruct (Z.leb_spec k (Z.of_nat (length population))) as [H1 | H1];
    cbn [andb];
    try (intros s; cbn; destruct t; [specialize (Hk eq_refl); lia | reflexivity]).
  eapply hoare_weaken; [apply hoare_sample_pool; intros _; lia |].
  intros l [Hlen Hrest]. split; [lia | exact Hrest].
Qed.

Lemma hoare_generate_projects (t : bool) (dept_name : string)
    (config : DeptConfig) (names : list string) (project_id : Z) :
  (t = true -> config_ok config) ->
  hoare t (generate_projects dept_name config project_id names)
    (generated_as dept_name config project_id names).
Proof.
  intros Hok. revert project_id.
  induction names as [| name names IH]; intros project_id;
    cbn [generate_projects].
  - apply hoare_ret. constructor.
  - eapply hoare_bind;
      [apply generate_realistic_project_record; exact Hok |].
    intros p (Hb & Hd & Hh & Hc).
    eapply hoare_bind; [apply IH |]. intros ps Hps.
    apply hoare_ret. now constructor.
Qed.

(** The names, ids and departments of the records of a run. *)
Lemma generated_as_columns (dept_name : string) (config : DeptConfig)
    (project_id : Z) (names : list string) (ps : list Project) :
  generated_as dept_name config project_id names ps ->
  map Project_Name ps = names
  /\ map Project_ID ps = seqZ project_id (Z.of_nat (length names))
  /\ Forall (fun p => Department p = dept_name) ps.
Proof.
  induction 1 as [| pid name names p ps Hb Hd Hh Hc Hrest (IH1 & IH2 & IH3)].
  - repeat split; constructor.
  - destruct Hd as (Hid & Hdept & Hname & _). repeat split.
    + cbn. now rewrite Hname, IH1.
    + cbn [map length]. rewrite Nat2Z.inj_succ, seqZ_cons by lia.
      rewrite Hid, IH2. repeat f_equal. lia.
    + now constructor.
Qed.

Lemma generated_as_Forall (dept_name : string) (config : DeptConfig)
    (project_id : Z) (names : list string) (ps : list Project) :
  generated_as dept_name config project_id names ps ->
  Forall (fun p => bucket_ok p /\ hours_spread_ok p
                   /\ (0 <= fst (cost_range config) -> cost_spread_ok p)
                   /\ exists pid name,
                        drawn_from dept_name pid name config p) ps.
Proof.
  induction 1; constructor; eauto 10.
Qed.

(** What [generate_department_dataset] returns, and when it returns. *)
Lemma hoare_generate_department_dataset (t : bool) (dept_name : string)
    (config : DeptConfig) (id_start num_projects : Z) :
  DEPT_CONFIG !! dept_name = Some config ->
  (t = true -> 0 <= num_projects
               <= Z.of_nat (length (project_types config))) ->
  hoare t (generate_department_dataset dept_name id_start num_projects)
    (fun ps => exists names rest,
       generated_as dept_name config id_start names ps
       /\ Z.of_nat (length names) = num_projects
       /\ project_types config ≡ₚ names ++ rest).
Proof.
  intros Hcfg Hnum. unfold generate_department_dataset. rewrite Hcfg.
  eapply hoare_bind; [apply hoare_sample; exact Hnum |].
  intros names (Hlen & rest & Hperm).
  eapply hoare_weaken.
  - apply hoare_generate_projects. intros _.
    now apply (DEPT_CONFIG_ok dept_name).
  - intros ps Hps. now exists names, rest.
Qed.

End GeneratedDataset.

(** ** Properties of [generate_realistic_project] *)

Lemma run_hoare {A : Type} (m : Rand A) (P : A -> Prop) (s s' : tape)
    (a : A) :
  hoare false m P -> m s = Some (a, s') -> P a.
Proof. intros H Hrun. specialize (H s). now rewrite Hrun in H. Qed.

Lemma no_total (P : Prop) : false = true -> P.
Proof. discriminate. Qed.

Lemma generated_record_all (dept_name : string) (project_id : Z)
    (project_name : string) (config : DeptConfig) (s s' : tape)
    (p : Project) :
  generate_realistic_project dept_name project_id project_name config s
  = Some (p, s') ->
  bucket_ok p
  /\ drawn_from dept_name project_id project_name config p
  /\ hours_spread_ok p
  /\ (0 <= fst (cost_range config) -> cost_spread_ok p).
Proof.
  intros Hrun.
  exact (run_hoare _ _ s s' p
           (generate_realistic_project_record false dept_name project_id
              project_name config (no_total _)) Hrun).
Qed.



(** X2.  A generated record carries the id, name and department it was
    asked for, a manager of the department's roster, a start date from
    2024-07-01 to 2024-12-28, a duration and a planned cost (a whole
    number) inside the configured ranges, 30 to 80 tasks and 400 to 1200
    planned hours. *)
Theorem generated_record_provenance (dept_name : string) (project_id : Z)
    (project_name : string) (config : DeptConfig) (s s' : tape)
    (p : Project) :
  generate_realistic_project dept_name project_id project_name config s
  = Some (p, s') ->
  drawn_from dept_name project_id project_name config p.
Proof.
  intros Hrun. apply generated_record_all in Hrun. tauto.
Qed.

Lemma generated_record_provenance_witness :
  exists p,
    option_map fst
      (generate_realistic_project "Marketing" 1001 "Website Redesign"
         marketing_config example_tape) = Some p
    /\ drawn_from "Marketing" 1001 "Website Redesign" marketing_config p.
Proof.
  destruct (generate_realistic_project "Marketing" 1001 "Website Redesign"
              marketing_config example_tape) as [[p s'] |] eqn:Hrun;
    [| vm_compute in Hrun; discriminate].
  exists p. split; [reflexivity |].
  exact (generated_record_provenance _ _ _ _ _ _ _ Hrun).
Defined.

(** The unrounded cost variance percentage of a row whose actual cost
    is within 85 and 120 percent of a positive planned cost. *)
Lemma cost_spread_raw (p : Project) :
  (0 < Planned_Cost p)%Q -> cost_spread_ok p ->
  exists x, cost_variance_raw p = Some x /\ (-15 <= x <= 20)%Q.
Proof.
  intros Hpos [Hlo Hhi].
  destruct (cost_variance_raw_pos p Hpos) as [Hraw _].
  eexists. split; [exact Hraw |].
  set (P := Planned_Cost p) in *. set (a := Actual_Cost p) in *.
  assert ((a - P) / P == a / P - 1)%Q as -> by (field; lra).
  assert (85 # 100 <= a / P)%Q by (apply Qle_shift_div_l; lra).
  assert (a / P <= 120 # 100)%Q by (apply Qle_shift_div_r; lra).
  split; lra.
Qed.



(** X4.  The worked hours of a generated record: between 90 percent of
    the planned hours (less one hour of truncation) and 125 percent for
    a Completed record; from the planned hours up to
    [planned * (1 + actual_completion / 100)] for one In Progress; from
    the planned hours up to 150 percent for every other status. *)
Theorem generated_record_hours_spread (dept_name : string)
    (project_id : Z) (project_name : string) (config : DeptConfig)
    (s s' : tape) (p : Project) :
  generate_realistic_project dept_name project_id project_name config s
  = Some (p, s') ->
  hours_spread_ok p.
Proof.
  intros Hrun. apply generated_record_all in Hrun. tauto.
Qed.

Lemma generated_record_hours_spread_witness :
  exists p,
    option_map fst
      (generate_realistic_project "Marketing" 1001 "Website Redesign"
         marketing_config example_tape) = Some p
    /\ hours_spread_ok p.
Proof.
  destruct (generate_realistic_project "Marketing" 1001 "Website Redesign"
              marketing_config example_tape) as [[p s'] |] eqn:Hrun;
    [| vm_compute in Hrun; discriminate].
  exists p. split; [reflexivity |].
  exact (generated_record_hours_spread _ _ _ _ _ _ _ Hrun).
Defined.

(** X5.  On a usable configuration every generated record satisfies all
    the per-row invariants of the data model (dates, positive costs,
    completion bounds, task bound, positive planned and non-negative
    worked hours, status in the enumerated set) and is accepted by the
    CHECK constraints of [projects]. *)
Theorem generated_record_invariants (dept_name : string) (project_id : Z)
    (project_name : string) (config : DeptConfig) (s s' : tape)
    (p : Project) :
  config_ok config ->
  generate_realistic_project dept_name project_id project_name config s
  = Some (p, s') ->
  project_invariants p /\ projects_check p = true.
Proof.
  intros (_ & Hcost & Hdur) Hrun. apply generated_record_all in Hrun.
  destruct Hrun as ((Hpc & Hbucket & Htc) & Hd & Hh & Hc).
  destruct Hd as (_ & _ & _ & _ & _ & Hdays & (pc & Hplanned & Hpc') & Htt
                  & Hph).
  destruct (Hc ltac:(lia)) as [Hlo Hhi].
  assert (0 < Planned_Cost p)%Q as Hpos.
  { rewrite Hplanned. change 0%Q with (inject_Z 0). rewrite <- Zlt_Qlt. lia. }
  assert (0 < Actual_Cost p)%Q as Hapos by lra.
  assert (0 <= Actual_Completion p <= 100) as Hac
    by (decompose [and or] Hbucket; lia).
  assert (Tasks_Completed p <= Tasks_Total p) as Htasks
    by (rewrite Htc; apply tasks_completed_le; lia).
  assert (0 <= Actual_Hours p) as Hah.
  { destruct Hh as (H1 & H2 & H3).
    destruct (String.eqb_spec (Status p) "Completed") as [E | E];
      [specialize (H1 E); lia |].
    destruct (String.eqb_spec (Status p) "In Progress") as [E' | E'];
      [specialize (H2 E'); lia | specialize (H3 E E'); lia]. }
  assert (In (Status p) valid_statuses) as Hst.
  { unfold valid_statuses. cbn.
    decompose [and or] Hbucket;
      match goal with H : Status p = _ |- _ => rewrite H end; tauto. }
  split.
  - unfold project_invariants. repeat split; try lia; try assumption.
  - apply projects_check_complete; try lia; try assumption; lra.
Qed.

Lemma generated_record_invariants_witness :
  exists p,
    option_map fst
      (generate_realistic_project "Marketing" 1001 "Website Redesign"
         marketing_config example_tape) = Some p
    /\ projects_check p = true.
Proof.
  destruct (generate_realistic_project "Marketing" 1001 "Website Redesign"
              marketing_config example_tape) as [[p s'] |] eqn:Hrun;
    [| vm_compute in Hrun; discriminate].
  exists p. split; [reflexivity |].
  refine (proj2 (generated_record_invariants _ _ _ _ _ _ _ _ Hrun)).
  unfold config_ok. cbn. repeat split; (discriminate || lia).
Defined.

(** ** Generated records under the view, the transform step and the
    report *)

(** X6.  For a generated record the view's delivery status is "On-Time"
    exactly when the status is Completed and "Delayed" exactly when it is
    Delayed, the transform step's [On_Time] flag is set exactly when the
    status is Completed, and the completion variance is never
    positive. *)
Theorem generated_record_delivery (dept_name : string) (project_id : Z)
    (project_name : string) (config : DeptConfig) (s s' : tape)
    (p : Project) :
  generate_realistic_project dept_name project_id project_name config s
  = Some (p, s') ->
  (Delivery_Status (kpi_metrics p) = "On-Time" <-> Status p = "Completed")
  /\ (Delivery_Status (kpi_metrics p) = "Delayed" <-> Status p = "Delayed")
  /\ (On_Time (transform_data p) = true <-> Status p = "Completed")
  /\ Completion_Variance (kpi_metrics p) <= 0.
Proof.
  intros Hrun. apply generated_record_all in Hrun.
  destruct Hrun as ((Hpc & Hbucket & _) & _).
  cbn [Delivery_Status On_Time Completion_Variance kpi_metrics
         transform_data].
  unfold delivery_status. rewrite Hpc.
  destruct (String.eqb_spec (Status p) "Completed") as [Hc | Hc];
    destruct (Z.eqb_spec (Actual_Completion p) 100) as [Ha | Ha];
    destruct (String.eqb_spec (Status p) "Delayed") as [Hd | Hd];
    destruct (Z.leb_spec 100 (Actual_Completion p)) as [Hl | Hl];
    cbn [andb];
    decompose [and or] Hbucket;
    repeat split; intros; try congruence; try lia; try discriminate.
Qed.

Lemma generated_record_delivery_witness :
  exists p,
    option_map fst
      (generate_realistic_project "Marketing" 1001 "Website Redesign"
         marketing_config example_tape) = Some p
    /\ (Delivery_Status (kpi_metrics p) = "On-Time"
        <-> Status p = "Completed").
Proof.
  destruct (generate_realistic_project "Marketing" 1001 "Website Redesign"
              marketing_config example_tape) as [[p s'] |] eqn:Hrun;
    [| vm_compute in Hrun; discriminate].
  exists p. split; [reflexivity |].
  exact (proj1 (generated_record_delivery _ _ _ _ _ _ _ Hrun)).
Defined.



(** ** The view against the report *)

Lemma budget_category_raw (r : Project) (x : Q) :
  cost_variance_raw r = Some x ->
  budget_category r =
  if Qle_bool x (-10) then "Significantly Under Budget"
  else if Qle_bool x 0 then "Under Budget"
  else if Qle_bool x 10 then "Within Budget"
  else "Over Budget".
Proof. intros H. unfold budget_category. rewrite H. reflexivity. Qed.

(** X8.  For a row with a positive planned cost the report's budget
    category (TEST 5) and the view's budget status agree on "Over
    Budget" only.  Every row the view calls "Under Budget" is
    "Significantly Under Budget" in the report; the report's "Under
    Budget" and "Within Budget" rows are all "Within Budget" in the
    view. *)
Theorem budget_category_vs_status (r : Project) :
  (0 < Planned_Cost r)%Q ->
  (budget_category r = "Over Budget"
   <-> Budget_Status (kpi_metrics r) = "Over Budget")
  /\ (Budget_Status (kpi_metrics r) = "Under Budget" ->
      budget_category r = "Significantly Under Budget")
  /\ (budget_category r = "Under Budget" ->
      Budget_Status (kpi_metrics r) = "Within Budget")
  /\ (budget_category r = "Within Budget" ->
      Budget_Status (kpi_metrics r) = "Within Budget").
Proof.
  intros Hpos. destruct (cost_variance_raw_pos r Hpos) as [Hraw _].
  set (x := ((Actual_Cost r - Planned_Cost r) / Planned_Cost r * 100)%Q)
    in *.
  assert (Actual_Cost r - Planned_Cost r == x * Planned_Cost r / 100)%Q
    as Hdiff by (unfold x; field; lra).
  rewrite (budget_category_raw r x Hraw), budget_status_raw, Hraw.
  unfold over_or_under.
  assert (Qlt_bool (Planned_Cost r) (Actual_Cost r) = true <-> (0 < x)%Q)
    as Hsign.
  { rewrite Qlt_bool_iff. unfold Qdiv in Hdiff.
    change (/ 100)%Q with (1 # 100)%Q in Hdiff. split; intros H; nra. }
  destruct (Qle_bool x (-10)) eqn:E1;
    destruct (Qle_bool x 0) eqn:E2;
    destruct (Qle_bool x 10) eqn:E3;
    destruct (Qle_bool (Qabs x) 10) eqn:E4;
    destruct (Qlt_bool (Planned_Cost r) (Actual_Cost r)) eqn:E5;
    repeat match goal with
           | H : Qle_bool (Qabs _) _ = true |- _ =>
               apply Qle_bool_iff, Qabs_Qle_condition in H
           | H : Qle_bool _ _ = true |- _ => apply Qle_bool_iff in H
           | H : Qle_bool (Qabs ?y) ?b = false |- _ =>
               assert (~ (- b <= y <= b)%Q)
                 by (intros Hc; apply Qabs_Qle_condition, Qle_bool_iff in Hc;
                     congruence);
               clear H
           | H : Qle_bool _ _ = false |- _ => apply Qle_bool_false in H
           end;
    try (assert (0 < x)%Q by (now apply Hsign));
    try (assert (~ (0 < x)%Q)
           by (intros Hc; apply Hsign in Hc; discriminate));
    repeat split; intros; try discriminate; try reflexivity;
    exfalso; lra.
Qed.

Lemma budget_category_vs_status_witness :
  budget_category (sample_row 1000 950) = "Under Budget"
  /\ Budget_Status (kpi_metrics (sample_row 1000 950)) = "Within Budget".
Proof.
  split; [reflexivity |].
  destruct (budget_category_vs_status (sample_row 1000 950))
    as (_ & _ & H & _); [reflexivity |].
  apply H. reflexivity.
Defined.

(** ** The percentages of the view *)

Section ViewPercentages.
Local Open Scope Q_scope.




End ViewPercentages.



(** ** Properties of [generate_department_dataset] and of the script *)

Lemma DEPT_CONFIG_cases (dept_name : string) (config : DeptConfig) :
  DEPT_CONFIG !! dept_name = Some config ->
  (dept_name = "Marketing" /\ config = marketing_config)
  \/ (dept_name = "Operations" /\ config = operations_config)
  \/ (dept_name = "IT" /\ config = it_config).
Proof.
  unfold DEPT_CONFIG. intros H. apply elem_of_list_to_map_2 in H.
  repeat (apply elem_of_cons in H; destruct H as [[= -> ->] | H]);
    [tauto | tauto | tauto | now apply elem_of_nil in H].
Qed.

Lemma DEPT_CONFIG_project_types_NoDup (dept_name : string)
    (config : DeptConfig) :
  DEPT_CONFIG !! dept_name = Some config -> NoDup (project_types config).
Proof.
  intros H. apply DEPT_CONFIG_cases in H.
  destruct H as [[_ ->] | [[_ ->] | [_ ->]]];
    match goal with
    | |- NoDup ?l => apply (bool_decide_unpack (NoDup l))
    end; vm_compute; exact I.
Qed.

Lemma generate_department_dataset_run (dept_name : string)
    (id_start num_projects : Z) (s s' : tape) (ps : list Project) :
  generate_department_dataset dept_name id_start num_projects s
  = Some (ps, s') ->
  exists config names rest,
    DEPT_CONFIG !! dept_name = Some config
    /\ generated_as dept_name config id_start names ps
    /\ Z.of_nat (length names) = num_projects
    /\ project_types config ≡ₚ names ++ rest.
Proof.
  intros Hrun.
  destruct (DEPT_CONFIG !! dept_name) as [config |] eqn:Hcfg.
  - pose proof (run_hoare _ _ s s' ps
                  (hoare_generate_department_dataset false dept_name config
                     id_start num_projects Hcfg (no_total _)) Hrun)
      as (names & rest & H).
    now exists config, names, rest.
  - unfold generate_department_dataset in Hrun. rewrite Hcfg in Hrun.
    discriminate.
Qed.

(** X10.  A dataset returned by [generate_department_dataset] has
    exactly [num_projects] records, numbered [id_start],
    [id_start + 1], ... in order, all of the department asked for. *)
Theorem generate_department_dataset_ids (dept_name : string)
    (id_start num_projects : Z) (s s' : tape) (ps : list Project) :
  generate_department_dataset dept_name id_start num_projects s
  = Some (ps, s') ->
  Z.of_nat (length ps) = num_projects
  /\ map Project_ID ps = seqZ id_start num_projects
  /\ Forall (fun p => Department p = dept_name) ps.
Proof.
  intros Hrun. apply generate_department_dataset_run in Hrun.
  destruct Hrun as (config & names & rest & _ & Hgen & Hlen & _).
  apply generated_as_columns in Hgen as (Hnames & Hids & Hdept).
  rewrite Hlen in Hids. repeat split; try assumption.
  rewrite <- Hlen, <- Hnames, length_map. reflexivity.
Qed.

Lemma generate_department_dataset_ids_witness :
  exists ps,
    option_map fst (generate_department_dataset "IT" 3001 3 example_tape)
    = Some ps
    /\ map Project_ID ps = [3001; 3002; 3003].
Proof.
  destruct (generate_department_dataset "IT" 3001 3 example_tape)
    as [[ps s'] |] eqn:Hrun; [| vm_compute in Hrun; discriminate].
  exists ps. split; [reflexivity |].
  exact (proj1 (proj2 (generate_department_dataset_ids _ _ _ _ _ _ Hrun))).
Defined.

(** X11.  No two records of a returned dataset share a project name,
    and every name is one of the department's [project_types]. *)
Theorem generate_department_dataset_names (dept_name : string)
    (id_start num_projects : Z) (s s' : tape) (ps : list Project) :
  generate_department_dataset dept_name id_start num_projects s
  = Some (ps, s') ->
  NoDup (map Project_Name ps)
  /\ exists config,
       DEPT_CONFIG !! dept_name = Some config
       /\ Forall (fun p => In (Project_Name p) (project_types config)) ps.
Proof.
  intros Hrun. apply generate_department_dataset_run in Hrun.
  destruct Hrun as (config & names & rest & Hcfg & Hgen & _ & Hperm).
  apply generated_as_columns in Hgen as (Hnames & _ & _).
  pose proof (DEPT_CONFIG_project_types_NoDup _ _ Hcfg) as Hnd.
  rewrite Hperm in Hnd. apply NoDup_app in Hnd as (Hnd & _ & _).
  split; [now rewrite Hnames |].
  exists config. split; [exact Hcfg |].
  apply Forall_forall. intros p Hp.
  apply list_elem_of_In. rewrite Hperm. apply elem_of_app. left.
  rewrite <- Hnames. apply list_elem_of_In, in_map, list_elem_of_In, Hp.
Qed.

Lemma generate_department_dataset_names_witness :
  exists ps,
    option_map fst (generate_department_dataset "IT" 3001 3 example_tape)
    = Some ps
    /\ NoDup (map Project_Name ps).
Proof.
  destruct (generate_department_dataset "IT" 3001 3 example_tape)
    as [[ps s'] |] eqn:Hrun; [| vm_compute in Hrun; discriminate].
  exists ps. split; [reflexivity |].
  exact (proj1 (generate_department_dataset_names _ _ _ _ _ _ Hrun)).
Defined.

(** X12.  [generate_department_dataset] raises exactly when the
    department is not a key of [DEPT_CONFIG] or when [num_projects] is
    negative or exceeds the number of names the department has; in
    every other case it returns, whatever is drawn. *)
Theorem generate_department_dataset_raises (dept_name : string)
    (id_start num_projects : Z) (s : tape) :
  generate_department_dataset dept_name id_start num_projects s = None
  <-> match DEPT_CONFIG !! dept_name with
      | None => True
      | Some config =>
          ~ 0 <= num_projects <= Z.of_nat (length (project_types config))
      end.
Proof.
  destruct (DEPT_CONFIG !! dept_name) as [config |] eqn:Hcfg.
  - split.
    + intros Hnone Hnum.
      pose proof (hoare_generate_department_dataset true dept_name config
                    id_start num_projects Hcfg (fun _ => Hnum) s) as H.
      rewrite Hnone in H. discriminate.
    + intros Hnum. unfold generate_department_dataset, sample, bind.
      rewrite Hcfg.
      destruct (Z.leb_spec 0 num_projects);
        destruct (Z.leb_spec num_projects
                    (Z.of_nat (length (project_types config))));
        cbn [andb]; try reflexivity.
      exfalso. apply Hnum. lia.
  - split; [trivial |]. intros _.
    unfold generate_department_dataset. now rewrite Hcfg.
Qed.

Lemma hoare_generate_project_data (t : bool) :
  hoare t generate_project_data
    (fun '(m, o, i) =>
       (exists names rest,
          generated_as "Marketing" marketing_config 1001 names m
          /\ Z.of_nat (length names) = 20
          /\ project_types marketing_config ≡ₚ names ++ rest)
       /\ (exists names rest,
             generated_as "Operations" operations_config 2001 names o
             /\ Z.of_nat (length names) = 20
             /\ project_types operations_config ≡ₚ names ++ rest)
       /\ (exists names rest,
             generated_as "IT" it_config 3001 names i
             /\ Z.of_nat (length names) = 20
             /\ project_types it_config ≡ₚ names ++ rest)).
Proof.
  unfold generate_project_data.
  eapply hoare_bind;
    [apply (hoare_generate_department_dataset t "Marketing"
              marketing_config); [reflexivity | intros _; cbn; lia] |].
  intros m Hm.
  eapply hoare_bind;
    [apply (hoare_generate_department_dataset t "Operations"
              operations_config); [reflexivity | intros _; cbn; lia] |].
  intros o Ho.
  eapply hoare_bind;
    [apply (hoare_generate_department_dataset t "IT" it_config);
     [reflexivity | intros _; cbn; lia] |].
  intros i Hi. apply hoare_ret. auto.
Qed.

(** X13.  On every tape the script produces three datasets of 20
    records, numbered 1001..1020, 2001..2020 and 3001..3020, so that no
    project id occurs twice among the 60 records. *)
Theorem generate_project_data_ids (s : tape) :
  exists m o i s',
    generate_project_data s = Some ((m, o, i), s')
    /\ map Project_ID m = seqZ 1001 20
    /\ map Project_ID o = seqZ 2001 20
    /\ map Project_ID i = seqZ 3001 20
    /\ NoDup (map Project_ID (m ++ o ++ i)).
Proof.
  pose proof (hoare_generate_project_data true s) as H.
  destruct (generate_project_data s) as [[[[m o] i] s'] |]; [| discriminate].
  destruct H as ((nm & rm & Hm & Hlm & _) & (no & ro & Ho & Hlo & _)
                 & (ni & ri & Hi & Hli & _)).
  apply generated_as_columns in Hm as (_ & Hm & _).
  apply generated_as_columns in Ho as (_ & Ho & _).
  apply generated_as_columns in Hi as (_ & Hi & _).
  rewrite Hlm in Hm. rewrite Hlo in Ho. rewrite Hli in Hi.
  exists m, o, i, s'. repeat split; try assumption.
  rewrite !map_app, Hm, Ho, Hi.
  match goal with
  | |- NoDup ?l => apply (bool_decide_unpack (NoDup l))
  end. vm_compute. exact I.
Qed.

(** ** The verdict of the validator *)

Section Verdict.

Lemma verdict_and_then {A B : Type} (c1 c2 : Prop) (m : Validation A)
    (k : A -> Validation B) :
  verdict c1 m -> (forall a, verdict c2 (k a)) ->
  verdict (c1 /\ c2) (and_then m k).
Proof.
  intros H1 H2 st. destruct (H1 st) as (a & st1 & E1 & F1).
  destruct (H2 a st1) as (b & st2 & E2 & F2).
  exists b, st2. unfold and_then. rewrite E1. split; [exact E2 | tauto].
Qed.

Lemma verdict_iff {A : Type} (c c' : Prop) (m : Validation A) :
  (c <-> c') -> verdict c m -> verdict c' m.
Proof.
  intros Hcc H st. destruct (H st) as (a & st' & E & F).
  exists a, st'. split; [exact E | tauto].
Qed.

Lemma verdict_pass {A : Type} (a : A) : verdict True (pass a).
Proof. intros st. exists a, st. split; [reflexivity | tauto]. Qed.

Lemma verdict_guard (b : bool) (found : list issue) :
  verdict (b = false) (if b then fail_with found else pass tt).
Proof.
  intros st. destruct b; eexists _, _; (split; [reflexivity |]); cbn;
    intuition congruence.
Qed.

Lemma verdict_notice (b : bool) (w : warning) :
  verdict True (if b then warn w else pass tt).
Proof.
  intros st. destruct b; eexists _, _; (split; [reflexivity |]); cbn; tauto.
Qed.

Lemma verdict_series {A B : Type} (c : Prop) (df : DataFrame) (col : string)
    (cell : CsvRow -> option A) (k : list (option A) -> Validation B) :
  col ∈ columns df ->
  verdict c (k (map cell (rows df))) ->
  verdict c (and_then (series df col cell) k).
Proof.
  intros Hcol Hk st. unfold and_then, series.
  rewrite bool_decide_eq_true_2 by exact Hcol. cbn. apply Hk.
Qed.

Lemma verdict_return_validation_passed :
  verdict True return_validation_passed.
Proof. intros st. exists (validation_passed st), st. split; [reflexivity | tauto]. Qed.

(** *** Lists *)

Lemma nonempty_filter {A : Type} (p : A -> bool) (l : list A) :
  nonempty (List.filter p l) = false <-> Forall (fun x => p x = false) l.
Proof.
  induction l as [| x l IH]; cbn.
  - split; [constructor | reflexivity].
  - destruct (p x) eqn:E; cbn.
    + split; [discriminate |]. intros H. inversion H; congruence.
    + rewrite IH. split; [now constructor |]. intros H. now inversion H.
Qed.

Lemma length_filter_zero {A : Type} (p : A -> bool) (l : list A) :
  (0 <? length (List.filter p l))%nat = false
  <-> Forall (fun x => p x = false) l.
Proof.
  rewrite <- nonempty_filter. destruct (List.filter p l); cbn; tauto.
Qed.

Lemma zip_with_map {A B C D : Type} (h : B -> C -> D) (f : A -> B)
    (g : A -> C) (l : list A) :
  zip_with h (map f l) (map g l) = map (fun x => h (f x) (g x)) l.
Proof. induction l as [| x l IH]; cbn; [reflexivity | now rewrite IH]. Qed.

Lemma Forall_map_iff {A B : Type} (P : B -> Prop) (f : A -> B) (l : list A) :
  Forall P (map f l) <-> Forall (fun x => P (f x)) l.
Proof.
  induction l as [| x l IH]; cbn.
  - split; constructor.
  - split; intros H; inversion H; subst; constructor; tauto.
Qed.

Lemma Forall_pointwise {A : Type} (P Q : A -> Prop) (l : list A) :
  (forall x, P x <-> Q x) -> Forall P l <-> Forall Q l.
Proof.
  intros H. rewrite !Forall_forall. split; intros HP x Hx; apply H, HP, Hx.
Qed.

Lemma Forall_conj {A : Type} (P Q : A -> Prop) (l : list A) :
  Forall P l /\ Forall Q l <-> Forall (fun x => P x /\ Q x) l.
Proof.
  induction l as [| x l IH].
  - split; [constructor | split; constructor].
  - split.
    + intros [H1 H2]. inversion H1; inversion H2; subst.
      constructor; [tauto |]. apply IH. tauto.
    + intros H. inversion H; subst. apply IH in H3.
      split; constructor; tauto.
Qed.

Lemma occurrences_zero {A : Type} `{EqDecision A} (i : A) (l : list A) :
  occurrences i l = 0%nat <-> i ∉ l.
Proof.
  unfold occurrences. induction l as [| x l IH]; cbn.
  - split; [intros _; apply not_elem_of_nil | reflexivity].
  - rewrite not_elem_of_cons. destruct (bool_decide_reflect (x = i)); cbn.
    + split; [discriminate | intros [Hne _]; congruence].
    + rewrite IH. split; [intros H; split; [congruence | exact H] | tauto].
Qed.

Lemma occurrences_cons {A : Type} `{EqDecision A} (i x : A) (l : list A) :
  occurrences i (x :: l)
  = ((if bool_decide (x = i) then 1 else 0) + occurrences i l)%nat.
Proof. unfold occurrences. cbn. destruct (bool_decide (x = i)); reflexivity. Qed.

Lemma NoDup_occurrences {A : Type} `{EqDecision A} (l : list A) :
  NoDup l <-> Forall (fun i => (1 <? occurrences i l)%nat = false) l.
Proof.
  induction l as [| x l IH].
  - split; constructor.
  - rewrite NoDup_cons, IH, Forall_cons, !Forall_forall.
    setoid_rewrite occurrences_cons. setoid_rewrite Nat.ltb_ge.
    rewrite bool_decide_eq_true_2 by reflexivity.
    rewrite <- occurrences_zero. split.
    + intros [Hx Hl]. split; [lia |]. intros i Hi. specialize (Hl i Hi).
      destruct (bool_decide_reflect (x = i)) as [-> | Hne]; [| lia].
      apply occurrences_zero in Hx. contradiction.
    + intros [Hx Hl]. split; [lia |]. intros i Hi. specialize (Hl i Hi).
      destruct (bool_decide (x = i)); lia.
Qed.

Lemma sum_list_zero {A : Type} (n : A -> nat) (cols : list A) :
  (0 <? sum_list (map snd (map (fun c => (c, n c)) cols)))%nat = false
  <-> Forall (fun c => (0 <? n c)%nat = false) cols.
Proof.
  induction cols as [| c cols IH]; cbn [map sum_list sum_list_with snd].
  - split; [constructor | reflexivity].
  - rewrite Forall_cons, <- IH, !Nat.ltb_ge.
    change (sum_list_with id ?l) with (sum_list l).
    set (rest := sum_list (map snd (map (fun c => (c, n c)) cols))).
    cbn [id]. lia.
Qed.

(** *** One verdict per check *)

Lemma verdict_check_schema (name : string) (df : DataFrame) :
  verdict (schema_ok df) (check_schema name df).
Proof.
  unfold check_schema. cbv zeta.
  eapply verdict_iff; [| apply verdict_guard].
  rewrite orb_false_iff.
  assert (forall l k : list string,
            nonempty (list_difference l k) = false
            <-> forall c, c ∈ l -> c ∈ k) as Hdiff.
  { intros l k. split.
    - intros H c Hc. apply nonempty_false in H.
      destruct (decide (c ∈ k)) as [Hin | Hout]; [exact Hin |].
      assert (c ∈ list_difference l k) as Hd
        by (apply list_elem_of_difference; split; assumption).
      rewrite H in Hd. now apply elem_of_nil in Hd.
    - intros H. destruct (list_difference l k) as [| c d] eqn:E;
        [reflexivity |].
      assert (c ∈ list_difference l k) as Hd by (rewrite E; left).
      apply list_elem_of_difference in Hd as [Hl Hk].
      destruct Hk. now apply H. }
  rewrite !Hdiff. unfold schema_ok. split.
  - intros [H1 H2] c. split; auto.
  - intros H. split; intros c; apply H.
Qed.

Lemma verdict_check_project_ids (all_data : DataFrame) :
  "Project_ID" ∈ columns all_data ->
  verdict (NoDup (map csv_Project_ID (rows all_data)))
    (check_project_ids all_data).
Proof.
  intros H. unfold check_project_ids. apply verdict_series; [exact H |].
  cbv zeta. eapply verdict_iff; [| apply verdict_guard].
  rewrite nonempty_filter. symmetry. apply NoDup_occurrences.
Qed.

Lemma verdict_check_id_ranges (m o i : DataFrame) :
  "Project_ID" ∈ columns m -> "Project_ID" ∈ columns o ->
  "Project_ID" ∈ columns i ->
  verdict True (check_id_ranges m o i).
Proof.
  intros Hm Ho Hi. unfold check_id_ranges.
  repeat (apply verdict_series; [assumption |]). apply verdict_pass.
Qed.

Lemma verdict_check_missing_values (all_data : DataFrame) :
  verdict
    (Forall (fun c => Forall (fun r => cell_isnull r c = false)
                        (rows all_data))
       (columns all_data))
    (check_missing_values all_data).
Proof.
  unfold check_missing_values. cbv zeta.
  eapply verdict_iff; [| apply verdict_guard].
  rewrite sum_list_zero. apply Forall_pointwise. intros c.
  apply length_filter_zero.
Qed.

Lemma verdict_check_dates (to_datetime : string -> option Z)
    (all_data : DataFrame) :
  "Start_Date" ∈ columns all_data -> "End_Date" ∈ columns all_data ->
  verdict
    (Forall
       (fun r =>
          exists start_date end_date,
            csv_Start_Date r ≫= to_datetime = Some start_date
            /\ csv_End_Date r ≫= to_datetime = Some end_date
            /\ start_date < end_date)
       (rows all_data))
    (check_dates to_datetime all_data).
Proof.
  intros Hs He. unfold check_dates.
  repeat (apply verdict_series; [assumption |]). cbv zeta.
  eapply verdict_iff;
    [| apply verdict_and_then; [apply verdict_guard |
                                intros _; apply verdict_guard]].
  rewrite orb_false_iff, !length_filter_zero, nonempty_filter.
  rewrite !map_map, zip_with_map, !Forall_map_iff, !Forall_conj.
  apply Forall_pointwise. intros r.
  destruct (csv_Start_Date r ≫= to_datetime) as [s |],
           (csv_End_Date r ≫= to_datetime) as [e |]; cbn.
  - rewrite Z.leb_gt. split.
    + intros (_ & H). exists s, e. repeat split; lia.
    + intros (s' & e' & [= <-] & [= <-] & H). repeat split; lia.
  - split; [intros [[_ [=]] _] | intros (? & ? & _ & [=] & _)].
  - split; [intros [[[=] _] _] | intros (? & ? & [=] & _)].
  - split; [intros [[[=] _] _] | intros (? & ? & [=] & _)].
Qed.

Lemma verdict_check_costs (all_data : DataFrame) :
  "Planned_Cost" ∈ columns all_data -> "Actual_Cost" ∈ columns all_data ->
  verdict
    (Forall
       (fun r =>
          cellQ (fun q => Qle_bool q 0) (csv_Planned_Cost r) = false
          /\ cellQ (fun q => Qle_bool q 0) (csv_Actual_Cost r) = false)
       (rows all_data))
    (check_costs all_data).
Proof.
  intros Hp Ha. unfold check_costs.
  repeat (apply verdict_series; [assumption |]). cbv zeta.
  eapply verdict_iff;
    [| apply verdict_and_then; [apply verdict_guard |
                                intros _; apply verdict_notice]].
  rewrite orb_false_iff, !nonempty_filter, !Forall_map_iff, Forall_conj.
  tauto.
Qed.

Lemma verdict_check_completion (all_data : DataFrame) :
  "Planned_Completion" ∈ columns all_data ->
  "Actual_Completion" ∈ columns all_data ->
  verdict
    (Forall
       (fun r =>
          (cellZ (fun z => z <? 0) (csv_Planned_Completion r)
           || cellZ (fun z => 100 <? z) (csv_Planned_Completion r)) = false
          /\ (cellZ (fun z => z <? 0) (csv_Actual_Completion r)
              || cellZ (fun z => 100 <? z) (csv_Actual_Completion r)) = false)
       (rows all_data))
    (check_completion all_data).
Proof.
  intros Hp Ha. unfold check_completion.
  repeat (apply verdict_series; [assumption |]). cbv zeta.
  eapply verdict_iff; [| apply verdict_guard].
  rewrite orb_false_iff, !nonempty_filter, !Forall_map_iff, Forall_conj.
  tauto.
Qed.

Lemma verdict_check_tasks (all_data : DataFrame) :
  "Tasks_Completed" ∈ columns all_data -> "Tasks_Total" ∈ columns all_data ->
  verdict
    (Forall
       (fun r =>
          match csv_Tasks_Completed r, csv_Tasks_Total r with
          | Some c, Some t => t <? c
          | _, _ => false
          end = false)
       (rows all_data))
    (check_tasks all_data).
Proof.
  intros Hc Ht. unfold check_tasks.
  repeat (apply verdict_series; [assumption |]). cbv zeta.
  eapply verdict_iff; [| apply verdict_guard].
  rewrite nonempty_filter, zip_with_map, Forall_map_iff.
  apply Forall_pointwise. intros r.
  destruct (csv_Tasks_Completed r), (csv_Tasks_Total r); tauto.
Qed.

Lemma verdict_check_status (all_data : DataFrame) :
  "Status" ∈ columns all_data ->
  verdict
    (Forall
       (fun r =>
          match csv_Status r with
          | Some s => negb (status_in s valid_statuses)
          | None => true
          end = false)
       (rows all_data))
    (check_status all_data).
Proof.
  intros Hs. unfold check_status.
  repeat (apply verdict_series; [assumption |]). cbv zeta.
  eapply verdict_iff; [| apply verdict_guard].
  rewrite nonempty_filter, Forall_map_iff. tauto.
Qed.

Lemma verdict_check_hours (all_data : DataFrame) :
  "Planned_Hours" ∈ columns all_data -> "Actual_Hours" ∈ columns all_data ->
  verdict
    (Forall
       (fun r =>
          (cellZ (fun z => z <=? 0) (csv_Planned_Hours r)
           || cellZ (fun z => z <? 0) (csv_Actual_Hours r)) = false)
       (rows all_data))
    (check_hours all_data).
Proof.
  intros Hp Ha. unfold check_hours.
  repeat (apply verdict_series; [assumption |]). cbv zeta.
  eapply verdict_iff; [| apply verdict_guard].
  rewrite nonempty_filter, zip_with_map, Forall_map_iff. tauto.
Qed.

Lemma verdict_check_department (dept : string) (df : DataFrame)
    (expected_range : Q * Q) :
  "Planned_Cost" ∈ columns df ->
  verdict True (check_department dept df expected_range).
Proof.
  intros Hp. unfold check_department.
  apply verdict_series; [assumption |]. cbv zeta. apply verdict_notice.
Qed.

(** *** The checks in sequence *)

Ltac expected_column :=
  match goal with
  | H : complete ?df |- _ ∈ columns ?df =>
      apply H; apply (bool_decide_unpack _); vm_compute; exact I
  end.

Lemma verdict_checks_after_schema (to_datetime : string -> option Z)
    (m o i : DataFrame) :
  complete m -> complete o -> complete i ->
  verdict
    (NoDup (map csv_Project_ID (rows (pd_concat [m; o; i])))
     /\ True
     /\ Forall (fun c => Forall (fun r => cell_isnull r c = false)
                           (rows (pd_concat [m; o; i])))
          (columns (pd_concat [m; o; i]))
     /\ Forall
          (fun r =>
             exists start_date end_date,
               csv_Start_Date r ≫= to_datetime = Some start_date
               /\ csv_End_Date r ≫= to_datetime = Some end_date
               /\ start_date < end_date)
          (rows (pd_concat [m; o; i]))
     /\ Forall
          (fun r =>
             cellQ (fun q => Qle_bool q 0) (csv_Planned_Cost r) = false
             /\ cellQ (fun q => Qle_bool q 0) (csv_Actual_Cost r) = false)
          (rows (pd_concat [m; o; i]))
     /\ Forall
          (fun r =>
             (cellZ (fun z => z <? 0) (csv_Planned_Completion r)
              || cellZ (fun z => 100 <? z) (csv_Planned_Completion r))
             = false
             /\ (cellZ (fun z => z <? 0) (csv_Actual_Completion r)
                 || cellZ (fun z => 100 <? z) (csv_Actual_Completion r))
                = false)
          (rows (pd_concat [m; o; i]))
     /\ Forall
          (fun r =>
             match csv_Tasks_Completed r, csv_Tasks_Total r with
             | Some c, Some t => t <? c
             | _, _ => false
             end = false)
          (rows (pd_concat [m; o; i]))
     /\ Forall
          (fun r =>
             match csv_Status r with
             | Some s => negb (status_in s valid_statuses)
             | None => true
             end = false)
          (rows (pd_concat [m; o; i]))
     /\ Forall
          (fun r =>
             (cellZ (fun z => z <=? 0) (csv_Planned_Hours r)
              || cellZ (fun z => z <? 0) (csv_Actual_Hours r)) = false)
          (rows (pd_concat [m; o; i]))
     /\ True /\ True /\ True /\ True)
    (checks_after_schema to_datetime m o i).
Proof.
  intros Hm Ho Hi.
  pose proof (complete_pd_concat m o i Hm) as Hall.
  unfold checks_after_schema. cbv zeta.
  set (all_data := pd_concat [m; o; i]) in *. clearbody all_data.
  apply verdict_and_then;
    [apply verdict_check_project_ids; expected_column | intros _].
  apply verdict_and_then;
    [apply verdict_check_id_ranges; expected_column | intros _].
  apply verdict_and_then; [apply verdict_check_missing_values | intros _].
  apply verdict_and_then;
    [apply verdict_check_dates; expected_column | intros _].
  apply verdict_and_then;
    [apply verdict_check_costs; expected_column | intros _].
  apply verdict_and_then;
    [apply verdict_check_completion; expected_column | intros _].
  apply verdict_and_then;
    [apply verdict_check_tasks; expected_column | intros _].
  apply verdict_and_then;
    [apply verdict_check_status; expected_column | intros _].
  apply verdict_and_then;
    [apply verdict_check_hours; expected_column | intros _].
  do 3 (apply verdict_and_then;
        [apply verdict_check_department; expected_column | intros _]).
  apply verdict_return_validation_passed.
Qed.

(** *** From the cells to the records *)

Lemma keep_complete {A : Type} (cols : list string) (c : string)
    (v : option A) :
  c ∈ cols -> keep cols c v = v.
Proof. intros H. unfold keep. now rewrite bool_decide_eq_true_2. Qed.

Lemma is_null_false {A : Type} (c : option A) :
  is_null c = false <-> is_Some c.
Proof.
  destruct c; cbn; split; try discriminate; try reflexivity.
  - intros _. now eexists.
  - intros [x [=]].
Qed.

Lemma row_checks_valid (to_datetime : string -> option Z) (r : CsvRow) :
  (forall c, c ∈ expected_columns -> cell_isnull r c = false)
  /\ (exists start_date end_date,
        csv_Start_Date r ≫= to_datetime = Some start_date
        /\ csv_End_Date r ≫= to_datetime = Some end_date
        /\ start_date < end_date)
  /\ (cellQ (fun q => Qle_bool q 0) (csv_Planned_Cost r) = false
      /\ cellQ (fun q => Qle_bool q 0) (csv_Actual_Cost r) = false)
  /\ ((cellZ (fun z => z <? 0) (csv_Planned_Completion r)
       || cellZ (fun z => 100 <? z) (csv_Planned_Completion r)) = false
      /\ (cellZ (fun z => z <? 0) (csv_Actual_Completion r)
          || cellZ (fun z => 100 <? z) (csv_Actual_Completion r)) = false)
  /\ match csv_Tasks_Completed r, csv_Tasks_Total r with
     | Some c, Some t => t <? c
     | _, _ => false
     end = false
  /\ match csv_Status r with
     | Some s => negb (status_in s valid_statuses)
     | None => true
     end = false
  /\ (cellZ (fun z => z <=? 0) (csv_Planned_Hours r)
      || cellZ (fun z => z <? 0) (csv_Actual_Hours r)) = false
  <-> row_valid to_datetime r.
Proof.
  unfold row_valid. split.
  - intros (Hnull & Hdates & [Hpc Hac] & [Hpl Hal] & Htasks & Hstatus
            & Hhours).
    assert (forall c, bool_decide (c ∈ expected_columns) = true ->
                      cell_isnull r c = false) as Hcell
      by (intros c Hc; apply Hnull; now apply bool_decide_eq_true_1 in Hc).
    pose proof (Hcell "Project_ID" eq_refl) as H1.
    pose proof (Hcell "Department" eq_refl) as H2.
    pose proof (Hcell "Project_Name" eq_refl) as H3.
    pose proof (Hcell "Manager" eq_refl) as H4.
    pose proof (Hcell "Planned_Cost" eq_refl) as H7.
    pose proof (Hcell "Actual_Cost" eq_refl) as H8.
    pose proof (Hcell "Planned_Completion" eq_refl) as H9.
    pose proof (Hcell "Actual_Completion" eq_refl) as H10.
    pose proof (Hcell "Status" eq_refl) as H11.
    pose proof (Hcell "Tasks_Total" eq_refl) as H12.
    pose proof (Hcell "Tasks_Completed" eq_refl) as H13.
    pose proof (Hcell "Planned_Hours" eq_refl) as H14.
    pose proof (Hcell "Actual_Hours" eq_refl) as H15.
    cbn in H1, H2, H3, H4, H7, H8, H9, H10, H11, H12, H13, H14, H15.
    clear Hnull Hcell.
    apply is_null_false in H1. apply is_null_false in H2.
    apply is_null_false in H3. apply is_null_false in H4.
    repeat split; try assumption.
    + destruct (csv_Planned_Cost r) as [p |]; [| discriminate].
      destruct (csv_Actual_Cost r) as [a |]; [| discriminate].
      cbn in Hpc, Hac. exists p, a.
      apply Qle_bool_false in Hpc. apply Qle_bool_false in Hac. auto.
    + destruct (csv_Planned_Completion r) as [p |]; [| discriminate].
      destruct (csv_Actual_Completion r) as [a |]; [| discriminate].
      cbn in Hpl, Hal. exists p, a.
      apply orb_false_iff in Hpl as [Hp1 Hp2].
      apply orb_false_iff in Hal as [Ha1 Ha2].
      rewrite Z.ltb_ge in Hp1, Hp2, Ha1, Ha2. auto.
    + destruct (csv_Tasks_Total r) as [t |]; [| discriminate].
      destruct (csv_Tasks_Completed r) as [c |]; [| discriminate].
      exists t, c. rewrite Z.ltb_ge in Htasks. auto.
    + destruct (csv_Status r) as [s |]; [| discriminate].
      exists s. split; [reflexivity |].
      apply negb_false_iff, status_in_In in Hstatus. exact Hstatus.
    + destruct (csv_Planned_Hours r) as [p |]; [| discriminate].
      destruct (csv_Actual_Hours r) as [a |]; [| discriminate].
      cbn in Hhours. exists p, a.
      apply orb_false_iff in Hhours as [Hp Ha].
      rewrite Z.leb_gt in Hp. rewrite Z.ltb_ge in Ha. auto.
  - intros (H1 & H2 & H3 & H4 & Hdates & (pc & ac & Epc & Eac & Hpc & Hac)
            & (pl & al & Epl & Eal & Hpl & Hal)
            & (t & c & Et & Ec & Htasks) & (s & Es & Hs)
            & (ph & ah & Eph & Eah & Hph & Hah)).
    rewrite Epc, Eac, Epl, Eal, Et, Ec, Es, Eph, Eah. cbn [cellQ cellZ].
    repeat split.
    + intros col Hcol.
      assert (is_Some (csv_Start_Date r)) as H5
        by (destruct Hdates as (? & ? & E & _);
            destruct (csv_Start_Date r); [now eexists | discriminate]).
      assert (is_Some (csv_End_Date r)) as H6
        by (destruct Hdates as (? & ? & _ & E & _);
            destruct (csv_End_Date r); [now eexists | discriminate]).
      apply is_null_false in H1. apply is_null_false in H2.
      apply is_null_false in H3. apply is_null_false in H4.
      apply is_null_false in H5. apply is_null_false in H6.
      unfold expected_columns in Hcol.
      repeat (apply elem_of_cons in Hcol as [-> | Hcol];
              [cbn; rewrite ?Epc, ?Eac, ?Epl, ?Eal, ?Et, ?Ec, ?Es, ?Eph,
                 ?Eah; first [assumption | reflexivity] |]).
      now apply elem_of_nil in Hcol.
    + exact Hdates.
    + destruct (Qle_bool pc 0) eqn:E; [| reflexivity].
      apply Qle_bool_iff in E. lra.
    + destruct (Qle_bool ac 0) eqn:E; [| reflexivity].
      apply Qle_bool_iff in E. lra.
    + apply orb_false_iff. rewrite !Z.ltb_ge. lia.
    + apply orb_false_iff. rewrite !Z.ltb_ge. lia.
    + apply Z.ltb_ge. lia.
    + apply negb_false_iff, status_in_In. exact Hs.
    + apply orb_false_iff. rewrite Z.leb_gt, Z.ltb_ge. lia.
Qed.

Lemma schema_ok_complete (df : DataFrame) : schema_ok df -> complete df.
Proof. intros H c Hc. now apply H. Qed.

Lemma row_valid_reindex (to_datetime : string -> option Z)
    (cols : list string) (r : CsvRow) :
  (forall c, c ∈ expected_columns -> c ∈ cols) ->
  row_valid to_datetime (reindex cols r) <-> row_valid to_datetime r.
Proof.
  intros H. unfold row_valid, reindex.
  cbn [csv_Project_ID csv_Department csv_Project_Name csv_Manager
       csv_Start_Date csv_End_Date csv_Planned_Cost csv_Actual_Cost
       csv_Planned_Completion csv_Actual_Completion csv_Status
       csv_Tasks_Total csv_Tasks_Completed csv_Planned_Hours
       csv_Actual_Hours].
  rewrite !keep_complete
    by (apply H; apply (bool_decide_unpack _); vm_compute; exact I).
  reflexivity.
Qed.

Lemma project_id_reindex (cols : list string) (r : CsvRow) :
  (forall c, c ∈ expected_columns -> c ∈ cols) ->
  csv_Project_ID (reindex cols r) = csv_Project_ID r.
Proof.
  intros H. cbn. apply keep_complete, H.
  apply (bool_decide_unpack _). vm_compute. exact I.
Qed.

Lemma rows_pd_concat (m o i : DataFrame) :
  rows (pd_concat [m; o; i])
  = (map (reindex (columns m)) (rows m)
     ++ map (reindex (columns o)) (rows o)
     ++ map (reindex (columns i)) (rows i))%list.
Proof. cbn. now rewrite app_nil_r. Qed.

Lemma schema_ok_pd_concat (m o i : DataFrame) :
  schema_ok m -> schema_ok o -> schema_ok i -> schema_ok (pd_concat [m; o; i]).
Proof.
  intros Hm Ho Hi c. cbn [pd_concat columns flat_map].
  rewrite elem_of_drop_duplicates, !elem_of_app, (Hm c), (Ho c), (Hi c).
  split; [| tauto]. intros [H | [H | [H | H]]]; try assumption.
  now apply elem_of_nil in H.
Qed.

Lemma checks_on_rows (to_datetime : string -> option Z) (m o i : DataFrame) :
  schema_ok m -> schema_ok o -> schema_ok i ->
  (NoDup (map csv_Project_ID (rows (pd_concat [m; o; i])))
   /\ True
   /\ Forall (fun c => Forall (fun r => cell_isnull r c = false)
                         (rows (pd_concat [m; o; i])))
        (columns (pd_concat [m; o; i]))
   /\ Forall
        (fun r =>
           exists start_date end_date,
             csv_Start_Date r ≫= to_datetime = Some start_date
             /\ csv_End_Date r ≫= to_datetime = Some end_date
             /\ start_date < end_date)
        (rows (pd_concat [m; o; i]))
   /\ Forall
        (fun r =>
           cellQ (fun q => Qle_bool q 0) (csv_Planned_Cost r) = false
           /\ cellQ (fun q => Qle_bool q 0) (csv_Actual_Cost r) = false)
        (rows (pd_concat [m; o; i]))
   /\ Forall
        (fun r =>
           (cellZ (fun z => z <? 0) (csv_Planned_Completion r)
            || cellZ (fun z => 100 <? z) (csv_Planned_Completion r))
           = false
           /\ (cellZ (fun z => z <? 0) (csv_Actual_Completion r)
               || cellZ (fun z => 100 <? z) (csv_Actual_Completion r))
              = false)
        (rows (pd_concat [m; o; i]))
   /\ Forall
        (fun r =>
           match csv_Tasks_Completed r, csv_Tasks_Total r with
           | Some c, Some t => t <? c
           | _, _ => false
           end = false)
        (rows (pd_concat [m; o; i]))
   /\ Forall
        (fun r =>
           match csv_Status r with
           | Some s => negb (status_in s valid_statuses)
           | None => true
           end = false)
        (rows (pd_concat [m; o; i]))
   /\ Forall
        (fun r =>
           (cellZ (fun z => z <=? 0) (csv_Planned_Hours r)
            || cellZ (fun z => z <? 0) (csv_Actual_Hours r)) = false)
        (rows (pd_concat [m; o; i]))
   /\ True /\ True /\ True /\ True)
  <-> NoDup (map csv_Project_ID (rows m ++ rows o ++ rows i)%list)
      /\ Forall (row_valid to_datetime) (rows m ++ rows o ++ rows i)%list.
Proof.
  intros Hm Ho Hi.
  pose proof (schema_ok_pd_concat m o i Hm Ho Hi) as Hall.
  assert (map csv_Project_ID (rows (pd_concat [m; o; i]))
          = map csv_Project_ID (rows m ++ rows o ++ rows i)%list) as Hids.
  { rewrite rows_pd_concat, !map_app, !map_map.
    rewrite (map_ext _ csv_Project_ID
               (fun r => project_id_reindex (columns m) r
                           (schema_ok_complete m Hm))).
    rewrite (map_ext _ csv_Project_ID
               (fun r => project_id_reindex (columns o) r
                           (schema_ok_complete o Ho))).
    rewrite (map_ext _ csv_Project_ID
               (fun r => project_id_reindex (columns i) r
                           (schema_ok_complete i Hi))).
    reflexivity. }
  assert (Forall (row_valid to_datetime) (rows (pd_concat [m; o; i]))
          <-> Forall (row_valid to_datetime) (rows m ++ rows o ++ rows i)%list)
    as Hrows.
  { rewrite rows_pd_concat, !Forall_app, !Forall_map_iff.
    rewrite (Forall_pointwise _ (row_valid to_datetime) (rows m))
      by (intros r; apply row_valid_reindex; now apply schema_ok_complete).
    rewrite (Forall_pointwise _ (row_valid to_datetime) (rows o))
      by (intros r; apply row_valid_reindex; now apply schema_ok_complete).
    rewrite (Forall_pointwise _ (row_valid to_datetime) (rows i))
      by (intros r; apply row_valid_reindex; now apply schema_ok_complete).
    reflexivity. }
  rewrite <- Hids, <- Hrows.
  set (all_data := pd_concat [m; o; i]) in *. clearbody all_data.
  rewrite !Forall_forall. split.
  - intros (Hnd & _ & Hmiss & Hd & Hc & Hcm & Ht & Hs & Hh & _).
    split; [exact Hnd |]. intros r Hr. apply row_checks_valid.
    split; [intros c Hc'; apply Hall in Hc';
            specialize (Hmiss c Hc'); rewrite Forall_forall in Hmiss;
            now apply Hmiss |].
    repeat split; first [now apply Hd | now apply Hc | now apply Hcm
                        | now apply Ht | now apply Hs | now apply Hh].
  - intros [Hnd Hv]. split; [exact Hnd |]. split; [exact I |].
    assert (forall r, r ∈ rows all_data -> _) as Hr
      by (intros r Hr; exact (proj2 (row_checks_valid to_datetime r)
                                (Hv r Hr))).
    split; [intros c Hc; rewrite Forall_forall; intros r Hin;
            apply (Hr r Hin); now apply Hall |].
    repeat match goal with |- _ /\ _ => split end; try exact I;
      intros r Hin; apply (Hr r Hin).
Qed.

End Verdict.

(** The run of the checks from the initial report. *)
Lemma validate_frames_true_iff (to_datetime : string -> option Z)
    (marketing operations it : DataFrame) :
  (validate_frames to_datetime marketing operations it
     {| validation_passed := true; issues := []; warnings := [] |}).1
  = Done true
  <-> schema_ok marketing /\ schema_ok operations /\ schema_ok it
      /\ NoDup (map csv_Project_ID
                  (rows marketing ++ rows operations ++ rows it)%list)
      /\ Forall (row_valid to_datetime)
           (rows marketing ++ rows operations ++ rows it)%list.
Proof.
  set (st0 := {| validation_passed := true; issues := []; warnings := [] |}).
  destruct (verdict_check_schema "Marketing" marketing st0)
    as ([] & st1 & E1 & F1).
  destruct (verdict_check_schema "Operations" operations st1)
    as ([] & st2 & E2 & F2).
  destruct (verdict_check_schema "IT" it st2) as ([] & st3 & E3 & F3).
  assert (validate_frames to_datetime marketing operations it st0
          = checks_after_schema to_datetime marketing operations it st3)
    as Hrun
    by (unfold validate_frames, and_then; now rewrite E1, E2, E3).
  pose proof (validate_frames_returns_flag to_datetime marketing operations
                it st0) as Hflag.
  change (validation_passed st0) with true in F1.
  destruct (validation_passed st3) eqn:H3.
  - assert (schema_ok marketing /\ schema_ok operations /\ schema_ok it)
      as (Hm & Ho & Hi) by tauto.
    destruct (verdict_checks_after_schema to_datetime marketing operations
                it (schema_ok_complete _ Hm) (schema_ok_complete _ Ho)
                (schema_ok_complete _ Hi) st3) as (b & st4 & E4 & F4).
    rewrite Hrun, E4 in *. cbn [fst]. specialize (Hflag st4 b eq_refl).
    rewrite (checks_on_rows to_datetime marketing operations it Hm Ho Hi)
      in F4.
    rewrite H3 in F4. subst b. split.
    + intros [= Hb]. tauto.
    + intros (_ & _ & _ & H). f_equal. tauto.
  - pose proof (keeps_checks_after_schema
                  (fun st => validation_passed st = false)
                  (fun st found _ _ => eq_refl) (fun st w H => H)
                  to_datetime marketing operations it st3 H3) as Hkept.
    rewrite Hrun in *.
    destruct (checks_after_schema to_datetime marketing operations it st3)
      as [[b | e] st4]; cbn [fst snd] in *.
    + specialize (Hflag st4 b eq_refl). subst b. split.
      * intros [= Hb]. congruence.
      * intros (Hm & Ho & Hi & _).
        assert (false = true) by tauto. discriminate.
    + split; [discriminate |]. intros (Hm & Ho & Hi & _).
      assert (false = true) by tauto. discriminate.
Qed.




(** ** The loader: where the rows of [managers] come from *)

Section ManagersOrigin.









End ManagersOrigin.



(** ** From the generator to the validator *)

Section WrittenFiles.

(** The dates the generator can write come back as they were. *)
Lemma strftime_round_trip (d : Z) :
  ymd2ord 2024 1 1 <= d <= ymd2ord 2025 12 31 ->
  read_text (strftime d) ≫= iso_to_datetime = Some d.
Proof.
  intros Hd.
  assert (forallb
            (fun d => match read_text (strftime d) ≫= iso_to_datetime with
                      | Some d' => d' =? d
                      | None => false
                      end)
            (map (fun k => ymd2ord 2024 1 1 + Z.of_nat k) (seq 0 731))
          = true) as Hall by (vm_compute; reflexivity).
  rewrite forallb_forall in Hall.
  assert (ymd2ord 2025 12 31 = ymd2ord 2024 1 1 + 730) as Hlast
    by (vm_compute; reflexivity).
  specialize (Hall d). rewrite in_map_iff in Hall.
  destruct (read_text (strftime d) ≫= iso_to_datetime) as [d' |].
  - f_equal. apply Z.eqb_eq, Hall.
    exists (Z.to_nat (d - ymd2ord 2024 1 1)). split; [lia |].
    apply in_seq. lia.
  - discriminate Hall.
    exists (Z.to_nat (d - ymd2ord 2024 1 1)). split; [lia |].
    apply in_seq. lia.
Qed.

Lemma read_text_In (s : string) (l : list string) :
  forallb (fun s => negb (existsb (String.eqb s) na_values)) l = true ->
  In s l -> read_text s = Some s.
Proof.
  intros Hall Hin. rewrite forallb_forall in Hall. specialize (Hall s Hin).
  unfold read_text. apply negb_true_iff in Hall. now rewrite Hall.
Qed.

(** None of the names of [DEPT_CONFIG] is taken for a missing value. *)
Lemma read_text_DEPT_CONFIG (dept_name : string) (config : DeptConfig) :
  DEPT_CONFIG !! dept_name = Some config ->
  read_text dept_name = Some dept_name
  /\ (forall s, In s (cfg_managers config) -> read_text s = Some s)
  /\ (forall s, In s (project_types config) -> read_text s = Some s).
Proof.
  intros H. apply DEPT_CONFIG_cases in H.
  destruct H as [[-> ->] | [[-> ->] | [-> ->]]];
    (split; [reflexivity |]);
    (split; intros s; apply read_text_In; vm_compute; reflexivity).
Qed.

Lemma read_text_status (s : string) :
  In s valid_statuses -> read_text s = Some s.
Proof. apply read_text_In. vm_compute. reflexivity. Qed.

(** The ranges of [DEPT_CONFIG], which are those the validator expects. *)
Lemma DEPT_CONFIG_ranges (dept_name : string) (config : DeptConfig) :
  DEPT_CONFIG !! dept_name = Some config ->
  0 < fst (cost_range config)
  /\ 0 < fst (duration_range config)
  /\ snd (duration_range config) <= 168.
Proof.
  intros H. apply DEPT_CONFIG_cases in H.
  destruct H as [[-> ->] | [[-> ->] | [-> ->]]]; cbn; lia.
Qed.

(** The invariants of a record follow from what the generator fixes. *)
Lemma drawn_record_invariants (dept_name : string) (project_id : Z)
    (project_name : string) (config : DeptConfig) (p : Project) :
  0 < fst (cost_range config) -> 0 < fst (duration_range config) ->
  bucket_ok p -> drawn_from dept_name project_id project_name config p ->
  hours_spread_ok p -> cost_spread_ok p ->
  project_invariants p.
Proof.
  intros Hcost Hdur (Hpc & Hbucket & Htc) Hd Hh [Hlo Hhi].
  destruct Hd as (_ & _ & _ & _ & _ & Hdays & (pc & Hplanned & Hpc') & Htt
                  & Hph).
  assert (0 < Planned_Cost p)%Q as Hpos.
  { rewrite Hplanned. change 0%Q with (inject_Z 0). rewrite <- Zlt_Qlt. lia. }
  assert (0 < Actual_Cost p)%Q as Hapos by lra.
  assert (0 <= Actual_Completion p <= 100) as Hac
    by (decompose [and or] Hbucket; lia).
  assert (Tasks_Completed p <= Tasks_Total p) as Htasks
    by (rewrite Htc; apply tasks_completed_le; lia).
  assert (0 <= Actual_Hours p) as Hah.
  { destruct Hh as (H1 & H2 & H3).
    destruct (String.eqb_spec (Status p) "Completed") as [E | E];
      [specialize (H1 E); lia |].
    destruct (String.eqb_spec (Status p) "In Progress") as [E' | E'];
      [specialize (H2 E'); lia | specialize (H3 E E'); lia]. }
  assert (In (Status p) valid_statuses) as Hst.
  { unfold valid_statuses. cbn.
    decompose [and or] Hbucket;
      match goal with H : Status p = _ |- _ => rewrite H end; tauto. }
  unfold project_invariants. repeat split; try lia; try assumption.
Qed.

(** A record of a department's dataset is a valid record once written
    and read back. *)
Lemma generated_row_valid (dept_name : string) (project_id : Z)
    (project_name : string) (config : DeptConfig) (p : Project) :
  DEPT_CONFIG !! dept_name = Some config ->
  In project_name (project_types config) ->
  bucket_ok p -> drawn_from dept_name project_id project_name config p ->
  hours_spread_ok p -> cost_spread_ok p ->
  row_valid iso_to_datetime (csv_row p).
Proof.
  intros Hcfg Hname Hb Hd Hh Hc.
  destruct (DEPT_CONFIG_ranges _ _ Hcfg) as (Hcost & Hdur & Hmax).
  destruct (read_text_DEPT_CONFIG _ _ Hcfg) as (Rdept & Rmgr & Rname).
  pose proof (drawn_record_invariants _ _ _ _ _ Hcost Hdur Hb Hd Hh Hc)
    as (Hdates & Hpc & Hac & Hpl & Hal & Htasks & Hph & Hah & Hst).
  destruct Hd as (_ & Edept & Ename & Hmgr & Hstart & Hdays & _).
  assert (ymd2ord 2024 7 1 = ymd2ord 2024 1 1 + 182) as E1
    by (vm_compute; reflexivity).
  assert (ymd2ord 2024 12 28 = ymd2ord 2024 1 1 + 362) as E2
    by (vm_compute; reflexivity).
  assert (ymd2ord 2025 12 31 = ymd2ord 2024 1 1 + 730) as E3
    by (vm_compute; reflexivity).
  unfold row_valid, csv_row.
  cbn [csv_Project_ID csv_Department csv_Project_Name csv_Manager
       csv_Start_Date csv_End_Date csv_Planned_Cost csv_Actual_Cost
       csv_Planned_Completion csv_Actual_Completion csv_Status
       csv_Tasks_Total csv_Tasks_Completed csv_Planned_Hours
       csv_Actual_Hours].
  rewrite Edept, Ename, Rdept, (Rname _ Hname), (Rmgr _ Hmgr),
    (read_text_status _ Hst).
  do 4 (split; [now eexists |]).
  split.
  { exists (Start_Date p), (End_Date p).
    rewrite !strftime_round_trip by lia. repeat split. exact Hdates. }
  split; [exists (Planned_Cost p), (Actual_Cost p); auto |].
  split; [exists (Planned_Completion p), (Actual_Completion p); auto |].
  split; [exists (Tasks_Total p), (Tasks_Completed p); auto |].
  split; [exists (Status p); auto |].
  exists (Planned_Hours p), (Actual_Hours p). auto.
Qed.

(** *** No warning *)

Lemma keeps_series_then (Inv : report -> Prop) {A B : Type} (df : DataFrame)
    (col : string) (cell : CsvRow -> option A)
    (k : list (option A) -> Validation B) :
  keeps Inv (k (map cell (rows df))) ->
  keeps Inv (and_then (series df col cell) k).
Proof.
  intros Hk st H. unfold and_then, series.
  destruct (bool_decide (col ∈ columns df)); cbn; [now apply Hk | exact H].
Qed.

Section Quiet.

Variable Inv : report -> Prop.
Hypothesis Inv_fail :
  forall st found, found <> [] -> Inv st -> Inv (fail_with found st).2.

Lemma keeps_guard (b : bool) (i : issue) :
  keeps Inv (if b then fail_with [i] else pass tt).
Proof.
  destruct b; [| now intros st H].
  intros st H. apply Inv_fail; [discriminate | exact H].
Qed.

(** [check_costs] warns about nothing when no variance is beyond 50
    percent. *)
Lemma keeps_check_costs_quiet (all_data : DataFrame) :
  Forall (fun r =>
            f64_abs_gt
              (cost_variance_cell (csv_Actual_Cost r) (csv_Planned_Cost r))
              50 = false)
    (rows all_data) ->
  keeps Inv (check_costs all_data).
Proof.
  intros Hquiet. unfold check_costs.
  do 2 apply keeps_series_then. cbv zeta.
  apply keeps_and_then; [apply keeps_guard | intros _].
  rewrite zip_with_map.
  assert (nonempty
            (List.filter (fun x => f64_abs_gt x 50)
               (map (fun r => cost_variance_cell (csv_Actual_Cost r)
                                (csv_Planned_Cost r)) (rows all_data)))
          = false) as ->
    by (apply nonempty_filter, Forall_map_iff, Hquiet).
  now intros st H.
Qed.

(** [check_department] warns about nothing when every planned cost is
    in the expected range. *)
Lemma keeps_check_department_quiet (dept : string) (df : DataFrame)
    (expected_range : Q * Q) :
  Forall (fun r =>
            cellQ (fun q => Qlt_bool q expected_range.1) (csv_Planned_Cost r)
            || cellQ (fun q => Qlt_bool expected_range.2 q)
                 (csv_Planned_Cost r) = false)
    (rows df) ->
  keeps Inv (check_department dept df expected_range).
Proof.
  intros Hquiet. unfold check_department.
  apply keeps_series_then. cbv zeta.
  assert (nonempty
            (List.filter
               (fun c => cellQ (fun q => Qlt_bool q expected_range.1) c
                         || cellQ (fun q => Qlt_bool expected_range.2 q) c)
               (map csv_Planned_Cost (rows df)))
          = false) as ->
    by (apply nonempty_filter, Forall_map_iff, Hquiet).
  now intros st H.
Qed.

Lemma keeps_validate_frames_quiet (to_datetime : string -> option Z)
    (m o i : DataFrame) :
  Forall (fun r =>
            f64_abs_gt
              (cost_variance_cell (csv_Actual_Cost r) (csv_Planned_Cost r))
              50 = false)
    (rows (pd_concat [m; o; i])) ->
  Forall (fun r =>
            cellQ (fun q => Qlt_bool q 10000) (csv_Planned_Cost r)
            || cellQ (fun q => Qlt_bool 50000 q) (csv_Planned_Cost r)
            = false)
    (rows m) ->
  Forall (fun r =>
            cellQ (fun q => Qlt_bool q 15000) (csv_Planned_Cost r)
            || cellQ (fun q => Qlt_bool 75000 q) (csv_Planned_Cost r)
            = false)
    (rows o) ->
  Forall (fun r =>
            cellQ (fun q => Qlt_bool q 20000) (csv_Planned_Cost r)
            || cellQ (fun q => Qlt_bool 100000 q) (csv_Planned_Cost r)
            = false)
    (rows i) ->
  keeps Inv (validate_frames to_datetime m o i).
Proof.
  intros Hcosts Hm Ho Hi. unfold validate_frames, checks_after_schema.
  cbv zeta.
  do 3 (apply keeps_and_then; [now apply keeps_check_schema | intros _]).
  apply keeps_and_then; [now apply keeps_check_project_ids | intros _].
  apply keeps_and_then; [apply keeps_check_id_ranges | intros _].
  apply keeps_and_then; [now apply keeps_check_missing_values | intros _].
  apply keeps_and_then; [now apply keeps_check_dates | intros _].
  apply keeps_and_then; [now apply keeps_check_costs_quiet | intros _].
  apply keeps_and_then; [now apply keeps_check_completion | intros _].
  apply keeps_and_then; [now apply keeps_check_tasks | intros _].
  apply keeps_and_then; [now apply keeps_check_status | intros _].
  apply keeps_and_then; [now apply keeps_check_hours | intros _].
  apply keeps_and_then;
    [now apply (keeps_check_department_quiet "Marketing" m (10000, 50000)%Q)
    | intros _].
  apply keeps_and_then;
    [now apply (keeps_check_department_quiet "Operations" o (15000, 75000)%Q)
    | intros _].
  apply keeps_and_then;
    [now apply (keeps_check_department_quiet "IT" i (20000, 100000)%Q)
    | intros _].
  apply keeps_return_validation_passed.
Qed.

End Quiet.

End WrittenFiles.

(** *** The written files of the script *)

Section GeneratedFiles.

Lemma reindex_csv_row (p : Project) :
  reindex expected_columns (csv_row p) = csv_row p.
Proof.
  unfold reindex, csv_row.
  cbn [csv_Project_ID csv_Department csv_Project_Name csv_Manager
       csv_Start_Date csv_End_Date csv_Planned_Cost csv_Actual_Cost
       csv_Planned_Completion csv_Actual_Completion csv_Status
       csv_Tasks_Total csv_Tasks_Completed csv_Planned_Hours
       csv_Actual_Hours csv_other].
  rewrite !keep_complete
    by (apply (bool_decide_unpack _); vm_compute; exact I).
  f_equal; apply map_filter_empty.
Qed.

Lemma generated_as_length (dept_name : string) (config : DeptConfig)
    (project_id : Z) (names : list string) (ps : list Project) :
  generated_as dept_name config project_id names ps ->
  length ps = length names.
Proof.
  intros H. apply generated_as_columns in H as (H & _ & _).
  now rewrite <- H, length_map.
Qed.

Lemma csv_frame_nonempty (ps : list Project) :
  (0 < length ps)%nat ->
  columns (csv_frame ps) = expected_columns
  /\ rows (csv_frame ps) = map csv_row ps.
Proof. destruct ps; cbn; [lia | tauto]. Qed.

Lemma rows_pd_concat_csv_frame (m o i : list Project) :
  (0 < length m)%nat -> (0 < length o)%nat -> (0 < length i)%nat ->
  rows (pd_concat [csv_frame m; csv_frame o; csv_frame i])
  = map csv_row (m ++ o ++ i).
Proof.
  intros Hm Ho Hi. rewrite rows_pd_concat.
  destruct (csv_frame_nonempty m Hm) as [-> ->].
  destruct (csv_frame_nonempty o Ho) as [-> ->].
  destruct (csv_frame_nonempty i Hi) as [-> ->].
  rewrite !map_map, !map_app.
  repeat f_equal; apply map_ext; intros p; apply reindex_csv_row.
Qed.

(** What the records of a department's dataset satisfy once written. *)
Lemma generated_as_rows (dept_name : string) (config : DeptConfig)
    (project_id : Z) (names rest : list string) (ps : list Project) :
  DEPT_CONFIG !! dept_name = Some config ->
  project_types config ≡ₚ names ++ rest ->
  generated_as dept_name config project_id names ps ->
  Forall
    (fun p =>
       row_valid iso_to_datetime (csv_row p)
       /\ f64_abs_gt
            (cost_variance_cell (Some (Actual_Cost p))
               (Some (Planned_Cost p))) 50 = false
       /\ Qlt_bool (Planned_Cost p) (inject_Z (fst (cost_range config)))
          || Qlt_bool (inject_Z (snd (cost_range config))) (Planned_Cost p)
          = false)
    ps.
Proof.
  intros Hcfg Hperm Hgen.
  destruct (DEPT_CONFIG_ranges _ _ Hcfg) as (Hcost & Hdur & Hmax).
  pose proof (generated_as_columns _ _ _ _ _ Hgen) as (Hnames & _ & _).
  apply generated_as_Forall in Hgen.
  rewrite Forall_forall in *. intros p Hp.
  destruct (Hgen p Hp) as (Hb & Hh & Hc & pid & name & Hd).
  specialize (Hc ltac:(lia)).
  assert (In name (project_types config)) as Hname.
  { apply list_elem_of_In. rewrite Hperm. apply elem_of_app. left.
    rewrite <- Hnames. destruct Hd as (_ & _ & <- & _).
    apply list_elem_of_In, in_map, list_elem_of_In, Hp. }
  split; [exact (generated_row_valid _ _ _ _ _ Hcfg Hname Hb Hd Hh Hc) |].
  destruct Hd as (_ & _ & _ & _ & _ & _ & (pc & Hplanned & Hpc) & _).
  assert (0 < Planned_Cost p)%Q as Hpos.
  { rewrite Hplanned. change 0%Q with (inject_Z 0). rewrite <- Zlt_Qlt. lia. }
  split.
  - destruct (cost_spread_raw p Hpos Hc) as (x & Hx & Hlo & Hhi).
    destruct (cost_variance_raw_pos p Hpos) as [Hraw _].
    rewrite Hraw in Hx. injection Hx as Hx.
    unfold cost_variance_cell, f64_div.
    destruct (Qeq_bool (Planned_Cost p) 0) eqn:E.
    { apply Qeq_bool_iff in E. rewrite E in Hpos.
      now apply Qlt_irrefl in Hpos. }
    cbn [f64_scale f64_abs_gt]. rewrite Hx.
    unfold Qlt_bool. apply negb_false_iff, Qle_bool_iff.
    apply Qabs_Qle_condition. split; lra.
  - apply orb_false_iff. unfold Qlt_bool. rewrite !negb_false_iff.
    rewrite Hplanned. split; apply Qle_bool_iff; rewrite <- Zle_Qle; lia.
Qed.

Lemma generated_files_clean (m o i : list Project)
    (nm rm no ro ni ri : list string) :
  generated_as "Marketing" marketing_config 1001 nm m ->
  Z.of_nat (length nm) = 20 ->
  project_types marketing_config ≡ₚ nm ++ rm ->
  generated_as "Operations" operations_config 2001 no o ->
  Z.of_nat (length no) = 20 ->
  project_types operations_config ≡ₚ no ++ ro ->
  generated_as "IT" it_config 3001 ni i ->
  Z.of_nat (length ni) = 20 ->
  project_types it_config ≡ₚ ni ++ ri ->
  validate_datasets iso_to_datetime (written_files (m, o, i))
  = (Done true, [], []).
Proof.
  intros Gm Lm Pm Go Lo Po Gi Li Pi.
  pose proof (generated_as_length _ _ _ _ _ Gm) as Nm.
  pose proof (generated_as_length _ _ _ _ _ Go) as No.
  pose proof (generated_as_length _ _ _ _ _ Gi) as Ni.
  assert (0 < length m)%nat as Hm by lia.
  assert (0 < length o)%nat as Ho by lia.
  assert (0 < length i)%nat as Hi by lia.
  pose proof (generated_as_rows "Marketing" marketing_config _ _ _ _
                eq_refl Pm Gm) as Rm.
  pose proof (generated_as_rows "Operations" operations_config _ _ _ _
                eq_refl Po Go) as Ro.
  pose proof (generated_as_rows "IT" it_config _ _ _ _ eq_refl Pi Gi) as Ri.
  apply generated_as_columns in Gm as (_ & Im & _).
  apply generated_as_columns in Go as (_ & Io & _).
  apply generated_as_columns in Gi as (_ & Ii & _).
  rewrite Lm in Im. rewrite Lo in Io. rewrite Li in Ii.
  destruct (csv_frame_nonempty m Hm) as [Cm Em].
  destruct (csv_frame_nonempty o Ho) as [Co Eo].
  destruct (csv_frame_nonempty i Hi) as [Ci Ei].
  unfold written_files, validate_datasets.
  cbn [marketing_csv operations_csv it_csv].
  set (st0 := {| validation_passed := true; issues := []; warnings := [] |}).
  assert ((validate_frames iso_to_datetime (csv_frame m) (csv_frame o)
             (csv_frame i) st0).1 = Done true) as Htrue.
  { apply validate_frames_true_iff.
    assert (forall ps, columns (csv_frame ps) = expected_columns ->
                       schema_ok (csv_frame ps)) as Hschema
      by (intros ps E c; now rewrite E).
    split; [now apply Hschema |]. split; [now apply Hschema |].
    split; [now apply Hschema |].
    rewrite Em, Eo, Ei, <- !map_app. split.
    - rewrite map_map. cbn [csv_row csv_Project_ID].
      rewrite <- (map_map Project_ID Some).
      change (map Some ?l) with (Some <$> l).
      apply NoDup_fmap_2; [intros x y [= Hxy]; exact Hxy |].
      rewrite !map_app, Im, Io, Ii.
      match goal with
      | |- NoDup ?l => apply (bool_decide_unpack (NoDup l))
      end. vm_compute. exact I.
    - apply Forall_map_iff. rewrite !Forall_app.
      repeat split;
        [eapply Forall_impl; [exact Rm |]
        | eapply Forall_impl; [exact Ro |]
        | eapply Forall_impl; [exact Ri |]];
        intros p Hp; apply Hp. }
  pose proof (validate_frames_consistent iso_to_datetime (csv_frame m)
                (csv_frame o) (csv_frame i) st0
                (conj (fun _ => eq_refl) (fun _ => eq_refl))) as Hcons.
  pose proof (validate_frames_returns_flag iso_to_datetime (csv_frame m)
                (csv_frame o) (csv_frame i) st0) as Hflag.
  assert (warnings
            (validate_frames iso_to_datetime (csv_frame m) (csv_frame o)
               (csv_frame i) st0).2 = []) as Hquiet.
  { apply (keeps_validate_frames_quiet (fun st => warnings st = []));
      [intros st found _ H; exact H | | | | | reflexivity].
    - rewrite rows_pd_concat_csv_frame by assumption.
      apply Forall_map_iff. rewrite !Forall_app.
      repeat split;
        [eapply Forall_impl; [exact Rm |]
        | eapply Forall_impl; [exact Ro |]
        | eapply Forall_impl; [exact Ri |]];
        intros p Hp; apply Hp.
    - rewrite Em. apply Forall_map_iff.
      eapply Forall_impl; [exact Rm |]. intros p Hp. apply Hp.
    - rewrite Eo. apply Forall_map_iff.
      eapply Forall_impl; [exact Ro |]. intros p Hp. apply Hp.
    - rewrite Ei. apply Forall_map_iff.
      eapply Forall_impl; [exact Ri |]. intros p Hp. apply Hp. }
  destruct (validate_frames iso_to_datetime (csv_frame m) (csv_frame o)
              (csv_frame i) st0) as [out st].
  cbn [fst snd] in *. subst out.
  specialize (Hflag st true eq_refl).
  unfold consistent in Hcons. rewrite Hquiet.
  rewrite (proj1 Hcons (eq_sym Hflag)). reflexivity.
Qed.

End GeneratedFiles.

(** X17.  Whatever is drawn, the three files the generator script writes
    pass the validator: [validate_datasets] returns [True] on them, with
    no issue recorded and no warning printed. *)
Theorem generated_files_pass_validation (s : tape) :
  exists datasets s',
    generate_project_data s = Some (datasets, s')
    /\ validate_datasets iso_to_datetime (written_files datasets)
       = (Done true, [], []).
Proof.
  pose proof (hoare_generate_project_data true s) as H.
  destruct (generate_project_data s) as [[[[m o] i] s'] |]; [| discriminate].
  destruct H as ((nm & rm & Gm & Lm & Pm) & (no & ro & Go & Lo & Po)
                 & (ni & ri & Gi & Li & Pi)).
  exists (m, o, i), s'. split; [reflexivity |].
  exact (generated_files_clean m o i nm rm no ro ni ri
           Gm Lm Pm Go Lo Po Gi Li Pi).
Qed.
